(** * PhantomOS face tracking: smoothing filter and gesture classifier

    A shallow embedding of [src/kernel/face_track.py] (class [FaceTracker])
    and the properties of its per-frame pipeline.

    Conventions of the embedding.
    - Python floats are read as real numbers ([R]): arithmetic is exact, so
      rounding, infinities and NaN are outside the model.
    - Python ints (frame counters, cooldown) are [Z].
    - A landmark list is a [list FaceLandmark]; [landmarks[i]] on an index
      past the end raises [IndexError], kept as the [IndexError] outcome of
      the [py] monad below.  All landmark indices of the program are
      non-negative literals, so they are [nat] and Python's wrap-around of
      negative indices never applies.
    - The camera, the landmark model, the Haar cascade, the clock and the
      preview window are external: what they return during one iteration
      is the [Frame] record handed to [process_frame]. *)

From Stdlib Require Import Reals Lra Lia ZArith List String Bool.
Import ListNotations.

Local Open Scope R_scope.

(** ** Outcomes of Python code that may raise *)

Inductive py (A : Type) : Type :=
| Ok (a : A)
| IndexError.

Arguments Ok {A} a.
Arguments IndexError {A}.

Definition bind {A B : Type} (m : py A) (k : A -> py B) : py B :=
  match m with
  | Ok a => k a
  | IndexError => IndexError
  end.

Notation "x <- m ;; k" := (bind m (fun x => k))
  (at level 61, m at next level, right associativity).
Notation "' pat <- m ;; k" := (bind m (fun x => match x with pat => k end))
  (at level 61, pat pattern, m at next level, right associativity).

(** [l[i]] for a non-negative index. *)
Definition getitem {A : Type} (l : list A) (i : nat) : py A :=
  match nth_error l i with
  | Some v => Ok v
  | None => IndexError
  end.

(** Python truthiness of a list: [not l]. *)
Definition not_ {A : Type} (l : list A) : bool :=
  match l with
  | [] => true
  | _ :: _ => false
  end.

(** [a < b] on floats, as a boolean. *)
Definition Rltb (a b : R) : bool :=
  if Rlt_dec a b then true else false.

(** ** Face mesh landmark indices *)

Definition NOSE_TIP : nat := 4.
Definition LEFT_EYE_OUTER : nat := 33.
Definition LEFT_EYE_INNER : nat := 133.
Definition RIGHT_EYE_OUTER : nat := 362.
Definition RIGHT_EYE_INNER : nat := 263.
Definition LEFT_EYE_TOP : nat := 159.
Definition LEFT_EYE_BOTTOM : nat := 145.
Definition RIGHT_EYE_TOP : nat := 386.
Definition RIGHT_EYE_BOTTOM : nat := 374.
Definition UPPER_LIP : nat := 13.
Definition LOWER_LIP : nat := 14.
Definition LEFT_MOUTH : nat := 61.
Definition RIGHT_MOUTH : nat := 291.
Definition LEFT_EYEBROW : nat := 70.
Definition RIGHT_EYEBROW : nat := 300.
Definition CHIN : nat := 152.
Definition FOREHEAD : nat := 10.

(** ** Data *)

(** [class FaceLandmark] *)
Record FaceLandmark : Type := mkFaceLandmark {
  x : R;
  y : R;
  z : R
}.

(** The gesture labels the classifier returns (the strings of the source). *)
Inductive Gesture : Type :=
| none
| blink_both
| blink_left
| blink_right
| mouth_open.

Definition gesture_name (g : Gesture) : string :=
  match g with
  | none => "none"
  | blink_both => "blink_both"
  | blink_left => "blink_left"
  | blink_right => "blink_right"
  | mouth_open => "mouth_open"
  end.

(** The fields of [FaceTracker.__init__], grouped as its comments group
    them: gesture detection state, smoothing, statistics. *)
Record GestureState : Type := mkGestureState {
  left_eye_closed_frames : Z;
  right_eye_closed_frames : Z;
  mouth_open_frames : Z;
  last_gesture : Gesture;
  gesture_cooldown : Z
}.

Record Smoothing : Type := mkSmoothing {
  smooth_x : R;
  smooth_y : R;
  smoothing_factor : R
}.

Record Statistics : Type := mkStatistics {
  frame_count : Z;
  start_time : R;
  timestamp_ms : Z
}.

Record FaceTracker : Type := mkFaceTracker {
  mode : string;
  show_preview : bool;
  (** [self.cap and self.cap.isOpened()] *)
  cap_opened : bool;
  (** [HAVE_MEDIAPIPE and self.landmarker] *)
  mediapipe : bool;
  gestures : GestureState;
  smoothing : Smoothing;
  statistics : Statistics
}.

Definition with_gestures (self : FaceTracker) (g : GestureState) : FaceTracker :=
  mkFaceTracker (mode self) (show_preview self) (cap_opened self)
    (mediapipe self) g (smoothing self) (statistics self).

Definition with_smoothing (self : FaceTracker) (s : Smoothing) : FaceTracker :=
  mkFaceTracker (mode self) (show_preview self) (cap_opened self)
    (mediapipe self) (gestures self) s (statistics self).

Definition with_statistics (self : FaceTracker) (s : Statistics) : FaceTracker :=
  mkFaceTracker (mode self) (show_preview self) (cap_opened self)
    (mediapipe self) (gestures self) (smoothing self) s.

(** [FaceTracker.__init__]: the state a tracker starts with.  [mp] is
    whether the landmarker could be created, [t0] is [time.time()].  The
    camera is opened later, by [start]. *)
Definition init (mode : string) (show_preview : bool) (mp : bool) (t0 : R)
  : FaceTracker :=
  mkFaceTracker mode show_preview false mp
    (mkGestureState 0 0 0 none 0)
    (mkSmoothing 0.5 0.5 0.3)
    (mkStatistics 0 t0 0).

(** ** Aspect ratios *)

(** [FaceTracker.calculate_eye_aspect_ratio] *)
Definition calculate_eye_aspect_ratio
  (landmarks : list FaceLandmark) (eye_indices : list nat) : py R :=
  if not_ landmarks then Ok 1 else
  i0 <- getitem eye_indices 0 ;; top <- getitem landmarks i0 ;;
  i1 <- getitem eye_indices 1 ;; bottom <- getitem landmarks i1 ;;
  i2 <- getitem eye_indices 2 ;; left <- getitem landmarks i2 ;;
  i3 <- getitem eye_indices 3 ;; right <- getitem landmarks i3 ;;
  let v_dist := sqrt ((x top - x bottom) ^ 2 + (y top - y bottom) ^ 2) in
  let h_dist := sqrt ((x left - x right) ^ 2 + (y left - y right) ^ 2) in
  if Rltb h_dist 0.001 then Ok 1 else
  Ok (v_dist / h_dist).

(** [FaceTracker.calculate_mouth_aspect_ratio] *)
Definition calculate_mouth_aspect_ratio (landmarks : list FaceLandmark) : py R :=
  if not_ landmarks then Ok 0 else
  upper <- getitem landmarks UPPER_LIP ;;
  lower <- getitem landmarks LOWER_LIP ;;
  left <- getitem landmarks LEFT_MOUTH ;;
  right <- getitem landmarks RIGHT_MOUTH ;;
  let v_dist := sqrt ((x upper - x lower) ^ 2 + (y upper - y lower) ^ 2) in
  let h_dist := sqrt ((x left - x right) ^ 2 + (y left - y right) ^ 2) in
  if Rltb h_dist 0.001 then Ok 0 else
  Ok (v_dist / h_dist).

(** ** Gesture classifier *)

Definition LEFT_EYE : list nat :=
  [LEFT_EYE_TOP; LEFT_EYE_BOTTOM; LEFT_EYE_INNER; LEFT_EYE_OUTER].

Definition RIGHT_EYE : list nat :=
  [RIGHT_EYE_TOP; RIGHT_EYE_BOTTOM; RIGHT_EYE_INNER; RIGHT_EYE_OUTER].

(** The second half of [FaceTracker.detect_gesture] (from "Blink
    detection" on), once the three threshold tests of the frame are known:
    the run-length counters are updated first, then the cooldown gates the
    recognition. *)
Definition recognize (st : GestureState)
  (left_closed right_closed mouth_wide : bool) : Gesture * GestureState :=
  let l := if left_closed then (left_eye_closed_frames st + 1)%Z else 0%Z in
  let r := if right_closed then (right_eye_closed_frames st + 1)%Z else 0%Z in
  let m := if mouth_wide then (mouth_open_frames st + 1)%Z else 0%Z in
  let upd := mkGestureState l r m (last_gesture st) in
  if (gesture_cooldown st >? 0)%Z then
    (none, upd (gesture_cooldown st - 1)%Z)
  else if (l >? 2)%Z && (r >? 2)%Z then
    (blink_both, upd 15%Z)
  else if (l >? 3)%Z && (r =? 0)%Z then
    (blink_left, upd 15%Z)
  else if (r >? 3)%Z && (l =? 0)%Z then
    (blink_right, upd 15%Z)
  else if (m >? 5)%Z then
    (mouth_open, upd 20%Z)
  else
    (none, upd (gesture_cooldown st)).

(** [FaceTracker.detect_gesture] *)
Definition detect_gesture (self : FaceTracker) (landmarks : list FaceLandmark)
  : py (Gesture * FaceTracker) :=
  let gesture := none in
  if not_ landmarks then Ok (gesture, self) else
  left_ear <- calculate_eye_aspect_ratio landmarks LEFT_EYE ;;
  right_ear <- calculate_eye_aspect_ratio landmarks RIGHT_EYE ;;
  mar <- calculate_mouth_aspect_ratio landmarks ;;
  let left_closed := Rltb left_ear 0.15 in
  let right_closed := Rltb right_ear 0.15 in
  let '(gesture, st) :=
    recognize (gestures self) left_closed right_closed (Rltb 0.4 mar) in
  Ok (gesture, with_gestures self st).

(** ** Tracking point *)

(** [FaceTracker.get_tracking_point]; [None] stands for the pair
    [(None, None)] of the source. *)
Definition get_tracking_point (self : FaceTracker)
  (landmarks : list FaceLandmark) (frame_width frame_height : Z)
  : py (option (R * R)) :=
  if not_ landmarks then Ok None else
  if (mode self =? "nose")%string then
    point <- getitem landmarks NOSE_TIP ;;
    Ok (Some (x point, y point))
  else if (mode self =? "head")%string then
    forehead <- getitem landmarks FOREHEAD ;;
    chin <- getitem landmarks CHIN ;;
    Ok (Some ((x forehead + x chin) / 2, (y forehead + y chin) / 2))
  else if (mode self =? "eyes")%string then
    li <- getitem landmarks LEFT_EYE_INNER ;;
    lo <- getitem landmarks LEFT_EYE_OUTER ;;
    ri <- getitem landmarks RIGHT_EYE_INNER ;;
    ro <- getitem landmarks RIGHT_EYE_OUTER ;;
    let left_x := (x li + x lo) / 2 in
    let left_y := (y li + y lo) / 2 in
    let right_x := (x ri + x ro) / 2 in
    let right_y := (y ri + y ro) / 2 in
    Ok (Some ((left_x + right_x) / 2, (left_y + right_y) / 2))
  else if (mode self =? "mouth")%string then
    lm <- getitem landmarks LEFT_MOUTH ;;
    rm <- getitem landmarks RIGHT_MOUTH ;;
    ul <- getitem landmarks UPPER_LIP ;;
    ll <- getitem landmarks LOWER_LIP ;;
    Ok (Some ((x lm + x rm) / 2, (y ul + y ll) / 2))
  else Ok (Some (0.5, 0.5)).

(** ** One frame *)

(** The dictionary [result] of [process_frame], one field per key. *)
Record TrackingRecord : Type := mkTrackingRecord {
  r_x : R;
  r_y : R;
  r_gesture : Gesture;
  r_face_detected : bool;
  r_fps : R
}.

(** What the outside world hands to one call of [process_frame]. *)
Record Frame : Type := mkFrame {
  (** [ret] of [self.cap.read()] *)
  ret : bool;
  (** [frame.shape[:2]] *)
  frame_height : Z;
  frame_width : Z;
  (** [detection_result.face_landmarks] of the landmarker *)
  face_landmarks : list (list FaceLandmark);
  (** [faces] of the Haar cascade, as boxes [(x, y, w, h)] *)
  faces : list (Z * Z * Z * Z);
  (** [time.time()] when the rate is computed *)
  now : R;
  (** [cv2.waitKey(1) & 0xFF == ord('q')] *)
  quit_key : bool
}.

(** One step of the exponential moving average, as both branches of
    [process_frame] write it for each coordinate. *)
Definition smooth (self : FaceTracker) (px py : R) : FaceTracker :=
  let s := smoothing self in
  let a := smoothing_factor s in
  let sx := smooth_x s * a + px * (1 - a) in
  let sy := smooth_y s * a + py * (1 - a) in
  with_smoothing self (mkSmoothing sx sy a).

(** [FaceTracker.process_frame].  The first component of the result is the
    returned dictionary ([None] when the method returns [None]); the second
    is [self] after the call.  Drawing on the preview window is left out. *)
Definition process_frame (self : FaceTracker) (f : Frame)
  : py (option TrackingRecord * FaceTracker) :=
  if negb (cap_opened self) then Ok (None, self) else
  if negb (ret f) then Ok (None, self) else
  let st := statistics self in
  let self := with_statistics self
    (mkStatistics (frame_count st + 1) (start_time st) (timestamp_ms st + 33)) in
  let result := mkTrackingRecord 0.5 0.5 none false 0 in
  '(result, self) <-
    (if mediapipe self then
       match face_landmarks f with
       | raw_landmarks :: _ =>
           let landmarks :=
             map (fun lm => mkFaceLandmark (x lm) (y lm) (z lm)) raw_landmarks in
           p <- get_tracking_point self landmarks (frame_width f) (frame_height f) ;;
           match p with
           | Some (px, py) =>
               let self := smooth self px py in
               '(gesture, self) <- detect_gesture self landmarks ;;
               Ok (mkTrackingRecord (smooth_x (smoothing self))
                     (smooth_y (smoothing self)) gesture true (r_fps result),
                   self)
           | None => Ok (result, self)
           end
       | [] => Ok (result, self)
       end
     else
       match faces f with
       | (bx, by_, w, h) :: _ =>
           let center_x := (IZR bx + IZR w / 2) / IZR (frame_width f) in
           let center_y := (IZR by_ + IZR h / 2) / IZR (frame_height f) in
           let self := smooth self center_x center_y in
           Ok (mkTrackingRecord (smooth_x (smoothing self))
                 (smooth_y (smoothing self)) (r_gesture result) true
                 (r_fps result),
               self)
       | [] => Ok (result, self)
       end) ;;
  let elapsed := now f - start_time (statistics self) in
  let result :=
    if Rltb 0 elapsed then
      mkTrackingRecord (r_x result) (r_y result) (r_gesture result)
        (r_face_detected result)
        (IZR (frame_count (statistics self)) / elapsed)
    else result in
  if show_preview self && quit_key f then Ok (None, self) else
  Ok (Some result, self).

(** The loop of [FaceTracker.run] over the frames the camera delivers:
    the records printed, in order, and the tracker when the loop is left
    (by [break], or because no further frame is looked at). *)
Fixpoint run_loop (self : FaceTracker) (frames : list Frame)
  : py (list TrackingRecord * FaceTracker) :=
  match frames with
  | [] => Ok ([], self)
  | f :: frames' =>
      '(result, self) <- process_frame self f ;;
      match result with
      | None => Ok ([], self)
      | Some r =>
          '(rs, self) <- run_loop self frames' ;;
          Ok (r :: rs, self)
      end
  end.

(** [FaceTracker.start] where the camera opens (the only case in which
    [run] reaches its loop). *)
Definition start (self : FaceTracker) : FaceTracker :=
  mkFaceTracker (mode self) (show_preview self) true (mediapipe self)
    (gestures self) (smoothing self) (statistics self).

(** [main] up to the loop: construct, set the smoothing factor from the
    command line, open the camera. *)
Definition main_tracker (mode : string) (preview : bool) (mp : bool)
  (t0 : R) (alpha : R) : FaceTracker :=
  let tracker := init mode preview mp t0 in
  let s := smoothing tracker in
  start (with_smoothing tracker (mkSmoothing (smooth_x s) (smooth_y s) alpha)).

(** * Vocabulary of the statements *)

(** ** Landmark sets *)

(** The Euclidean distance of two landmarks in the image plane, as both
    aspect-ratio functions compute it. *)
Definition distance (a b : FaceLandmark) : R :=
  sqrt ((x a - x b) ^ 2 + (y a - y b) ^ 2).

(** Every index the program reads. *)
Definition LANDMARK_INDICES : list nat :=
  [NOSE_TIP; LEFT_EYE_OUTER; LEFT_EYE_INNER; RIGHT_EYE_OUTER; RIGHT_EYE_INNER;
   LEFT_EYE_TOP; LEFT_EYE_BOTTOM; RIGHT_EYE_TOP; RIGHT_EYE_BOTTOM;
   UPPER_LIP; LOWER_LIP; LEFT_MOUTH; RIGHT_MOUTH;
   LEFT_EYEBROW; RIGHT_EYEBROW; CHIN; FOREHEAD].

(** A landmark set is populated when every such index is present in it
    (the landmark model delivers either no set or a full one). *)
Definition populated (landmarks : list FaceLandmark) : Prop :=
  Forall (fun i => (i < List.length landmarks)%nat) LANDMARK_INDICES.

(** The threshold tests of [detect_gesture] on one landmark set. *)
Definition eye_closed (landmarks : list FaceLandmark) (eye : list nat) : Prop :=
  exists ear, calculate_eye_aspect_ratio landmarks eye = Ok ear /\ ear < 0.15.

Definition eye_open (landmarks : list FaceLandmark) (eye : list nat) : Prop :=
  exists ear, calculate_eye_aspect_ratio landmarks eye = Ok ear /\ ~ ear < 0.15.

Definition mouth_wide (landmarks : list FaceLandmark) : Prop :=
  exists mar, calculate_mouth_aspect_ratio landmarks = Ok mar /\ mar > 0.4.


(** ** Runs of the classifier *)

(** Fresh classifier state: the three run lengths and the cooldown are 0. *)
Definition fresh (st : GestureState) : Prop :=
  left_eye_closed_frames st = 0%Z /\
  right_eye_closed_frames st = 0%Z /\
  mouth_open_frames st = 0%Z /\
  gesture_cooldown st = 0%Z.

(** [detect_gesture] called on consecutive face-detected frames: the
    labels it returns, in order, and the tracker afterwards. *)
Fixpoint detect_gestures (self : FaceTracker)
  (frames : list (list FaceLandmark)) : py (list Gesture * FaceTracker) :=
  match frames with
  | [] => Ok ([], self)
  | landmarks :: frames' =>
      '(gesture, self) <- detect_gesture self landmarks ;;
      '(gs, self) <- detect_gestures self frames' ;;
      Ok (gesture :: gs, self)
  end.

(** The same run on the threshold tests alone. *)
Fixpoint recognize_all (st : GestureState) (tests : list (bool * bool * bool))
  : list Gesture * GestureState :=
  match tests with
  | [] => ([], st)
  | (lc, rc, mw) :: tests' =>
      let '(g, st) := recognize st lc rc mw in
      let '(gs, st) := recognize_all st tests' in
      (g :: gs, st)
  end.

(** No run length is negative. *)
Definition counters_nonneg (st : GestureState) : Prop :=
  (0 <= left_eye_closed_frames st)%Z /\
  (0 <= right_eye_closed_frames st)%Z /\
  (0 <= mouth_open_frames st)%Z.

(** The three threshold tests [detect_gesture] makes on a landmark set. *)
Definition tests_of (landmarks : list FaceLandmark) (t : bool * bool * bool)
  : Prop :=
  not_ landmarks = false /\
  exists left_ear right_ear mar,
    calculate_eye_aspect_ratio landmarks LEFT_EYE = Ok left_ear /\
    calculate_eye_aspect_ratio landmarks RIGHT_EYE = Ok right_ear /\
    calculate_mouth_aspect_ratio landmarks = Ok mar /\
    t = (Rltb left_ear 0.15, Rltb right_ear 0.15, Rltb 0.4 mar).

(** ** A gesture held over consecutive frames *)



Definition cooldown_set (g : Gesture) : Z :=
  match g with
  | mouth_open => 20
  | _ => 15
  end.





(** ** Frames *)

(** The raw point of a frame that was read: the tracking point of the
    first landmark set on the landmarker path, the centre of the first
    box on the Haar path, [None] when no face was detected. *)
Definition raw_point (self : FaceTracker) (f : Frame) : py (option (R * R)) :=
  if mediapipe self then
    match face_landmarks f with
    | raw_landmarks :: _ =>
        get_tracking_point self
          (map (fun lm => mkFaceLandmark (x lm) (y lm) (z lm)) raw_landmarks)
          (frame_width f) (frame_height f)
    | [] => Ok None
    end
  else
    match faces f with
    | (bx, by_, w, h) :: _ =>
        Ok (Some ((IZR bx + IZR w / 2) / IZR (frame_width f),
                  (IZR by_ + IZR h / 2) / IZR (frame_height f)))
    | [] => Ok None
    end.

(** The landmark set a frame carries, if any, is populated. *)
Definition frame_populated (f : Frame) : Prop :=
  match face_landmarks f with
  | raw_landmarks :: _ => raw_landmarks = [] \/ populated raw_landmarks
  | [] => True
  end.

(** The frame is read and the loop is not left on it. *)
Definition processed (self : FaceTracker) (f : Frame) : Prop :=
  ret f = true /\ show_preview self && quit_key f = false.

(** A point of the unit square. *)
Definition in_unit_square (px py : R) : Prop :=
  0 <= px <= 1 /\ 0 <= py <= 1.

(** A frame with the given landmark sets and nothing else of note: read
    from a 640x480 camera at time [t], no Haar boxes, no key pressed. *)
Definition landmarks_frame (sets : list (list FaceLandmark)) (t : R) : Frame :=
  mkFrame true 480 640 sets [] t false.

(** ** Concrete faces *)

(** A face whose landmarks all sit on one point: every distance is 0. *)
Definition point_face (px py : R) : list FaceLandmark :=
  repeat (mkFaceLandmark px py 0) 478.

(** A face with eye corners 0.1 apart and mouth corners 0.2 apart, whose
    eyelids and lips are [le], [re] and [mo] apart: its aspect ratios are
    [le / 0.1], [re / 0.1] and [mo / 0.2].  Every other landmark sits on
    the nose tip at (0.5, 0.5). *)
Definition face_landmark (le re mo : R) (i : nat) : FaceLandmark :=
  if (i =? LEFT_EYE_TOP)%nat then mkFaceLandmark 0.3 (0.4 + le) 0
  else if (i =? LEFT_EYE_BOTTOM)%nat then mkFaceLandmark 0.3 0.4 0
  else if (i =? LEFT_EYE_INNER)%nat then mkFaceLandmark 0.35 0.4 0
  else if (i =? LEFT_EYE_OUTER)%nat then mkFaceLandmark 0.25 0.4 0
  else if (i =? RIGHT_EYE_TOP)%nat then mkFaceLandmark 0.7 (0.4 + re) 0
  else if (i =? RIGHT_EYE_BOTTOM)%nat then mkFaceLandmark 0.7 0.4 0
  else if (i =? RIGHT_EYE_INNER)%nat then mkFaceLandmark 0.75 0.4 0
  else if (i =? RIGHT_EYE_OUTER)%nat then mkFaceLandmark 0.65 0.4 0
  else if (i =? UPPER_LIP)%nat then mkFaceLandmark 0.5 (0.7 + mo) 0
  else if (i =? LOWER_LIP)%nat then mkFaceLandmark 0.5 0.7 0
  else if (i =? LEFT_MOUTH)%nat then mkFaceLandmark 0.6 0.7 0
  else if (i =? RIGHT_MOUTH)%nat then mkFaceLandmark 0.4 0.7 0
  else mkFaceLandmark 0.5 0.5 0.

Definition face (le re mo : R) : list FaceLandmark :=
  map (face_landmark le re mo) (seq 0 478).

(** * Vocabulary of the further properties *)

(** Every landmark of the set lies in the unit square of the image. *)
Definition landmarks_in_unit_square (landmarks : list FaceLandmark) : Prop :=
  Forall (fun lm => in_unit_square (x lm) (y lm)) landmarks.

(** Left and right exchanged: in the classifier state, in the label, in
    the tests of a frame. *)
Definition mirror_state (st : GestureState) : GestureState :=
  mkGestureState (right_eye_closed_frames st) (left_eye_closed_frames st)
    (mouth_open_frames st) (last_gesture st) (gesture_cooldown st).

Definition mirror_gesture (g : Gesture) : Gesture :=
  match g with
  | blink_left => blink_right
  | blink_right => blink_left
  | _ => g
  end.

Definition mirror_test (t : bool * bool * bool) : bool * bool * bool :=
  let '(lc, rc, mw) := t in (rc, lc, mw).

(** The landmark sets [process_frame] hands to [detect_gesture] over a
    run of processed frames on the landmarker path: the first set of each
    frame that has one, unless it is empty. *)
Definition face_sets (frames : list Frame) : list (list FaceLandmark) :=
  flat_map (fun f =>
              match face_landmarks f with
              | raw_landmarks :: _ =>
                  if not_ raw_landmarks then [] else [raw_landmarks]
              | [] => []
              end) frames.

(** The rate [process_frame] reports on a frame, for a tracker that has
    counted [frame_count] frames before it. *)
Definition rate (self : FaceTracker) (f : Frame) : R :=
  let elapsed := now f - start_time (statistics self) in
  if Rltb 0 elapsed
  then IZR (frame_count (statistics self) + 1) / elapsed
  else 0.

(** The statistics after one more frame has been read. *)
Definition tick (st : Statistics) : Statistics :=
  mkStatistics (frame_count st + 1) (start_time st) (timestamp_ms st + 33).

(** What [process_frame] returns for a record built on a frame that was
    read: [None] when the preview is shown and the quit key is pressed. *)
Definition returned (self : FaceTracker) (f : Frame) (r : TrackingRecord)
  : option TrackingRecord :=
  if show_preview self && quit_key f then None else Some r.

(** What a frame carries lies inside the image: the landmarks of its
    first landmark set in the unit square, its first Haar box inside a
    frame of positive size. *)
Definition frame_in_unit_square (f : Frame) : Prop :=
  match face_landmarks f with
  | raw_landmarks :: _ => landmarks_in_unit_square raw_landmarks
  | [] => True
  end /\
  match faces f with
  | (bx, by_, w, h) :: _ =>
      (0 <= bx /\ 0 <= w /\ bx + w <= frame_width f /\ 0 < frame_width f /\
       0 <= by_ /\ 0 <= h /\ by_ + h <= frame_height f /\ 0 < frame_height f)%Z
  | [] => True
  end.

(** A frame of the Haar path with one box. *)
Definition box_frame (bx by_ w h : Z) (t : R) : Frame :=
  mkFrame true 480 640 [] [(bx, by_, w, h)] t false.

(** * Properties *)

(** ** Basic facts about the embedding *)

Lemma Rltb_true (a b : R) : a < b -> Rltb a b = true.
Proof.
  intros H. unfold Rltb. destruct (Rlt_dec a b); [reflexivity | contradiction].
Qed.

Lemma Rltb_false (a b : R) : ~ a < b -> Rltb a b = false.
Proof.
  intros H. unfold Rltb. destruct (Rlt_dec a b); [contradiction | reflexivity].
Qed.

Lemma getitem_Ok_not_empty {A : Type} (l : list A) (i : nat) (v : A) :
  getitem l i = Ok v -> not_ l = false.
Proof.
  destruct l; [ destruct i; discriminate | reflexivity ].
Qed.

(** ** Degenerate geometry *)

(** C6. Whenever the four landmarks of an eye can be read and the
    horizontal distance between its corners is below 0.001,
    [calculate_eye_aspect_ratio] returns exactly 1.0; whenever the four
    mouth landmarks can be read and the horizontal distance between the
    mouth corners is below 0.001, [calculate_mouth_aspect_ratio] returns
    exactly 0.0.  Both are ordinary return values: nothing is raised. *)
Theorem degenerate_geometry_fallback :
  (forall landmarks i_top i_bottom i_left i_right top bottom left right,
      getitem landmarks i_top = Ok top ->
      getitem landmarks i_bottom = Ok bottom ->
      getitem landmarks i_left = Ok left ->
      getitem landmarks i_right = Ok right ->
      distance left right < 0.001 ->
      calculate_eye_aspect_ratio landmarks [i_top; i_bottom; i_left; i_right]
      = Ok 1)
  /\
  (forall landmarks upper lower left right,
      getitem landmarks UPPER_LIP = Ok upper ->
      getitem landmarks LOWER_LIP = Ok lower ->
      getitem landmarks LEFT_MOUTH = Ok left ->
      getitem landmarks RIGHT_MOUTH = Ok right ->
      distance left right < 0.001 ->
      calculate_mouth_aspect_ratio landmarks = Ok 0).
Proof.
  split.
  - intros landmarks it ib il ir top bottom left right Ht Hb Hl Hr Hd.
    unfold calculate_eye_aspect_ratio.
    rewrite (getitem_Ok_not_empty _ _ _ Ht).
    cbn [getitem nth_error bind].
    rewrite Ht, Hb, Hl, Hr. cbn [bind].
    unfold distance in Hd. rewrite (Rltb_true _ _ Hd). reflexivity.
  - intros landmarks upper lower left right Hu Hlo Hl Hr Hd.
    unfold calculate_mouth_aspect_ratio.
    rewrite (getitem_Ok_not_empty _ _ _ Hu).
    rewrite Hu, Hlo, Hl, Hr. cbn [bind].
    unfold distance in Hd. rewrite (Rltb_true _ _ Hd). reflexivity.
Qed.

Lemma distance_same (a : FaceLandmark) : distance a a = 0.
Proof.
  unfold distance.
  replace ((x a - x a) ^ 2 + (y a - y a) ^ 2) with 0 by ring.
  apply sqrt_0.
Qed.

Lemma degenerate_geometry_fallback_witness :
  calculate_eye_aspect_ratio (point_face 0.5 0.5) LEFT_EYE = Ok 1 /\
  calculate_mouth_aspect_ratio (point_face 0.5 0.5) = Ok 0.
Proof.
  destruct degenerate_geometry_fallback as [Heye Hmouth].
  split.
  - apply (Heye (point_face 0.5 0.5) LEFT_EYE_TOP LEFT_EYE_BOTTOM
             LEFT_EYE_INNER LEFT_EYE_OUTER
             (mkFaceLandmark 0.5 0.5 0) (mkFaceLandmark 0.5 0.5 0)
             (mkFaceLandmark 0.5 0.5 0) (mkFaceLandmark 0.5 0.5 0));
      try reflexivity.
    rewrite distance_same. lra.
  - apply (Hmouth (point_face 0.5 0.5)
             (mkFaceLandmark 0.5 0.5 0) (mkFaceLandmark 0.5 0.5 0)
             (mkFaceLandmark 0.5 0.5 0) (mkFaceLandmark 0.5 0.5 0));
      try reflexivity.
    rewrite distance_same. lra.
Defined.

(** ** From landmark sets to threshold tests *)

Lemma populated_getitem (landmarks : list FaceLandmark) (i : nat) :
  populated landmarks -> In i LANDMARK_INDICES ->
  exists v, getitem landmarks i = Ok v.
Proof.
  intros Hp Hi. unfold populated in Hp. rewrite Forall_forall in Hp.
  specialize (Hp i Hi). unfold getitem.
  destruct (nth_error landmarks i) eqn:E; [eauto |].
  apply nth_error_None in E. lia.
Qed.

Lemma populated_not_empty (landmarks : list FaceLandmark) :
  populated landmarks -> not_ landmarks = false.
Proof.
  intros Hp. destruct (populated_getitem landmarks NOSE_TIP Hp) as [v Hv].
  - simpl. auto.
  - exact (getitem_Ok_not_empty _ _ _ Hv).
Qed.

Ltac read_landmark Hp i :=
  let v := fresh "v" in
  let Hv := fresh "Hv" in
  destruct (populated_getitem _ i Hp) as [v Hv];
  [ unfold LANDMARK_INDICES; simpl; tauto | rewrite Hv; cbn [bind] ].

Lemma populated_eye_ratio (landmarks : list FaceLandmark) (eye : list nat) :
  populated landmarks -> eye = LEFT_EYE \/ eye = RIGHT_EYE ->
  exists ear, calculate_eye_aspect_ratio landmarks eye = Ok ear.
Proof.
  intros Hp He. unfold calculate_eye_aspect_ratio.
  rewrite (populated_not_empty _ Hp).
  destruct He as [-> | ->]; cbn [LEFT_EYE RIGHT_EYE getitem nth_error bind];
    fold (@getitem FaceLandmark).
  - read_landmark Hp LEFT_EYE_TOP. read_landmark Hp LEFT_EYE_BOTTOM.
    read_landmark Hp LEFT_EYE_INNER. read_landmark Hp LEFT_EYE_OUTER.
    match goal with |- context [Rltb ?a ?b] => destruct (Rltb a b) end; eauto.
  - read_landmark Hp RIGHT_EYE_TOP. read_landmark Hp RIGHT_EYE_BOTTOM.
    read_landmark Hp RIGHT_EYE_INNER. read_landmark Hp RIGHT_EYE_OUTER.
    match goal with |- context [Rltb ?a ?b] => destruct (Rltb a b) end; eauto.
Qed.

Lemma populated_mouth_ratio (landmarks : list FaceLandmark) :
  populated landmarks ->
  exists mar, calculate_mouth_aspect_ratio landmarks = Ok mar.
Proof.
  intros Hp. unfold calculate_mouth_aspect_ratio.
  rewrite (populated_not_empty _ Hp).
  read_landmark Hp UPPER_LIP. read_landmark Hp LOWER_LIP.
  read_landmark Hp LEFT_MOUTH. read_landmark Hp RIGHT_MOUTH.
  match goal with |- context [Rltb ?a ?b] => destruct (Rltb a b) end; eauto.
Qed.

Lemma populated_tests (landmarks : list FaceLandmark) :
  populated landmarks -> exists t, tests_of landmarks t.
Proof.
  intros Hp.
  destruct (populated_eye_ratio landmarks LEFT_EYE Hp) as [el Hl]; [auto |].
  destruct (populated_eye_ratio landmarks RIGHT_EYE Hp) as [er Hr]; [auto |].
  destruct (populated_mouth_ratio landmarks Hp) as [m Hm].
  exists (Rltb el 0.15, Rltb er 0.15, Rltb 0.4 m).
  split; [apply populated_not_empty; assumption |].
  exists el, er, m. auto.
Qed.

Lemma tests_left_closed landmarks lc rc mw :
  tests_of landmarks (lc, rc, mw) -> eye_closed landmarks LEFT_EYE -> lc = true.
Proof.
  intros [_ (el & er & m & Hl & Hr & Hm & E)] [e [He Hlt]].
  rewrite Hl in He. injection He as ->. injection E as -> _ _.
  apply Rltb_true; assumption.
Qed.

Lemma tests_left_open landmarks lc rc mw :
  tests_of landmarks (lc, rc, mw) -> eye_open landmarks LEFT_EYE -> lc = false.
Proof.
  intros [_ (el & er & m & Hl & Hr & Hm & E)] [e [He Hlt]].
  rewrite Hl in He. injection He as ->. injection E as -> _ _.
  apply Rltb_false; assumption.
Qed.

Lemma tests_right_closed landmarks lc rc mw :
  tests_of landmarks (lc, rc, mw) -> eye_closed landmarks RIGHT_EYE -> rc = true.
Proof.
  intros [_ (el & er & m & Hl & Hr & Hm & E)] [e [He Hlt]].
  rewrite Hr in He. injection He as ->. injection E as _ -> _.
  apply Rltb_true; assumption.
Qed.

Lemma tests_right_open landmarks lc rc mw :
  tests_of landmarks (lc, rc, mw) -> eye_open landmarks RIGHT_EYE -> rc = false.
Proof.
  intros [_ (el & er & m & Hl & Hr & Hm & E)] [e [He Hlt]].
  rewrite Hr in He. injection He as ->. injection E as _ -> _.
  apply Rltb_false; assumption.
Qed.

Lemma tests_mouth_wide landmarks lc rc mw :
  tests_of landmarks (lc, rc, mw) -> mouth_wide landmarks -> mw = true.
Proof.
  intros [_ (el & er & m & Hl & Hr & Hm & E)] [e [He Hlt]].
  rewrite Hm in He. injection He as ->. injection E as _ _ ->.
  apply Rltb_true; assumption.
Qed.


(** [detect_gesture] is [recognize] on the tests of the frame; it touches
    the gesture state only. *)
Lemma detect_gesture_tests self landmarks lc rc mw :
  tests_of landmarks (lc, rc, mw) ->
  detect_gesture self landmarks =
  Ok (fst (recognize (gestures self) lc rc mw),
      with_gestures self (snd (recognize (gestures self) lc rc mw))).
Proof.
  intros [Hne (el & er & m & Hl & Hr & Hm & E)].
  injection E as -> -> ->.
  unfold detect_gesture. rewrite Hne, Hl, Hr, Hm. cbn [bind].
  destruct (recognize (gestures self) (Rltb el 0.15) (Rltb er 0.15) (Rltb 0.4 m));
    reflexivity.
Qed.

Lemma detect_gestures_tests frames : forall tests self,
  Forall2 tests_of frames tests ->
  detect_gestures self frames =
  Ok (fst (recognize_all (gestures self) tests),
      with_gestures self (snd (recognize_all (gestures self) tests))).
Proof.
  induction frames as [| landmarks frames IH]; intros tests self H;
    inversion H as [| ? t ? tests' Ht Hrest]; subst.
  - simpl. destruct self; reflexivity.
  - destruct t as [[lc rc] mw]. cbn [detect_gestures recognize_all].
    rewrite (detect_gesture_tests self landmarks lc rc mw Ht). cbn [bind].
    rewrite (IH tests' _ Hrest). cbn [bind gestures with_gestures].
    destruct (recognize (gestures self) lc rc mw) as [g st]. cbn [fst snd].
    destruct (recognize_all st tests') as [gs st']. reflexivity.
Qed.

Lemma populated_all_tests frames :
  Forall populated frames -> exists tests, Forall2 tests_of frames tests.
Proof.
  induction 1 as [| landmarks frames Hp _ [tests IH]].
  - exists []. constructor.
  - destruct (populated_tests landmarks Hp) as [t Ht].
    exists (t :: tests). constructor; assumption.
Qed.

(** ** The classifier on threshold tests *)

Lemma recognize_all_cons st lc rc mw tests :
  recognize_all st ((lc, rc, mw) :: tests) =
  (fst (recognize st lc rc mw)
     :: fst (recognize_all (snd (recognize st lc rc mw)) tests),
   snd (recognize_all (snd (recognize st lc rc mw)) tests)).
Proof.
  cbn [recognize_all]. destruct (recognize st lc rc mw) as [g st1].
  cbn [fst snd]. destruct (recognize_all st1 tests); reflexivity.
Qed.

Lemma recognize_all_app tests1 : forall st tests2,
  recognize_all st (tests1 ++ tests2) =
  (fst (recognize_all st tests1)
     ++ fst (recognize_all (snd (recognize_all st tests1)) tests2),
   snd (recognize_all (snd (recognize_all st tests1)) tests2)).
Proof.
  induction tests1 as [| [[lc rc] mw] tests1 IH]; intros st tests2.
  - cbn [app recognize_all fst snd].
    destruct (recognize_all st tests2); reflexivity.
  - rewrite <- app_comm_cons, !recognize_all_cons, IH. reflexivity.
Qed.

(** While the cooldown is positive a frame is silent and costs one unit
    of cooldown, whatever the tests and the counters are. *)
Lemma recognize_cooldown st lc rc mw :
  (0 < gesture_cooldown st)%Z ->
  fst (recognize st lc rc mw) = none /\
  gesture_cooldown (snd (recognize st lc rc mw)) = (gesture_cooldown st - 1)%Z.
Proof.
  intros H. unfold recognize.
  destruct (Z.gtb_spec (gesture_cooldown st) 0); [| lia].
  split; reflexivity.
Qed.

Lemma recognize_all_cooldown tests : forall st,
  (Z.of_nat (List.length tests) <= gesture_cooldown st)%Z ->
  fst (recognize_all st tests) = repeat none (List.length tests) /\
  gesture_cooldown (snd (recognize_all st tests)) =
  (gesture_cooldown st - Z.of_nat (List.length tests))%Z.
Proof.
  induction tests as [| [[lc rc] mw] tests IH]; intros st H.
  - cbn. split; [reflexivity | lia].
  - cbn [List.length] in H |- *. rewrite recognize_all_cons. cbn [fst snd].
    destruct (recognize_cooldown st lc rc mw) as [Hg Hc]; [lia |].
    destruct (IH (snd (recognize st lc rc mw))) as [IHg IHc]; [lia |].
    rewrite Hg, IHg, IHc, Hc. split; [reflexivity | lia].
Qed.

Lemma fresh_inv st :
  fresh st -> st = mkGestureState 0 0 0 (last_gesture st) 0.
Proof.
  destruct st; unfold fresh; cbn. intros (-> & -> & -> & ->). reflexivity.
Qed.

(** ** Blink of both eyes *)

(** C2. From fresh classifier state, three consecutive face-detected
    frames with both eye aspect ratios below 0.15 make the classifier
    return none, none, blink_both, and on each of the next 14
    face-detected frames it returns none, whatever those frames show (so
    also when both eyes stay closed). *)
Theorem blink_both_on_third_frame :
  forall self f1 f2 f3 rest,
    fresh (gestures self) ->
    Forall (fun landmarks =>
              populated landmarks /\
              eye_closed landmarks LEFT_EYE /\
              eye_closed landmarks RIGHT_EYE) [f1; f2; f3] ->
    Forall populated rest ->
    List.length rest = 14%nat ->
    exists self',
      detect_gestures self ([f1; f2; f3] ++ rest) =
      Ok ([none; none; blink_both] ++ repeat none 14, self').
Proof.
  intros self f1 f2 f3 rest Hfresh Hclosed Hrest Hlen.
  inversion Hclosed as [| ? ? (P1 & L1 & R1) H1]; subst.
  inversion H1 as [| ? ? (P2 & L2 & R2) H2]; subst.
  inversion H2 as [| ? ? (P3 & L3 & R3) _]; subst.
  destruct (populated_tests f1 P1) as [[[l1 r1] m1] T1].
  destruct (populated_tests f2 P2) as [[[l2 r2] m2] T2].
  destruct (populated_tests f3 P3) as [[[l3 r3] m3] T3].
  destruct (populated_all_tests rest Hrest) as [trest Trest].
  assert (Hl : List.length trest = 14%nat)
    by (rewrite <- (Forall2_length Trest); assumption).
  rewrite (tests_left_closed _ _ _ _ T1 L1), (tests_right_closed _ _ _ _ T1 R1) in T1.
  rewrite (tests_left_closed _ _ _ _ T2 L2), (tests_right_closed _ _ _ _ T2 R2) in T2.
  rewrite (tests_left_closed _ _ _ _ T3 L3), (tests_right_closed _ _ _ _ T3 R3) in T3.
  eexists.
  rewrite (detect_gestures_tests _
             ([(true, true, m1); (true, true, m2); (true, true, m3)] ++ trest)).
  2:{ cbn [app]. repeat (constructor; [assumption |]). assumption. }
  f_equal. f_equal.
  rewrite recognize_all_app. cbn [fst snd].
  rewrite (fresh_inv _ Hfresh).
  assert (Hcd : gesture_cooldown
                  (snd (recognize_all
                          (mkGestureState 0 0 0 (last_gesture (gestures self)) 0)
                          [(true, true, m1); (true, true, m2); (true, true, m3)]))
                = 15%Z)
    by (destruct m1, m2, m3; reflexivity).
  destruct (recognize_all_cooldown trest _ ltac:(rewrite Hcd, Hl; lia)) as [-> _].
  rewrite Hl. destruct m1, m2, m3; reflexivity.
Qed.

(** ** The concrete faces *)

Lemma distance_vertical (a b : FaceLandmark) :
  x a = x b -> y b <= y a -> distance a b = y a - y b.
Proof.
  intros Hx Hy. unfold distance. rewrite Hx.
  replace ((x b - x b) ^ 2 + (y a - y b) ^ 2) with ((y a - y b) ^ 2) by ring.
  apply sqrt_pow2. lra.
Qed.

Lemma distance_horizontal (a b : FaceLandmark) :
  y a = y b -> x b <= x a -> distance a b = x a - x b.
Proof.
  intros Hy Hx. unfold distance. rewrite Hy.
  replace ((x a - x b) ^ 2 + (y b - y b) ^ 2) with ((x a - x b) ^ 2) by ring.
  apply sqrt_pow2. lra.
Qed.

(** The aspect ratios in terms of [distance], when the landmarks can be
    read. *)
Lemma eye_ratio_distance landmarks i_top i_bottom i_left i_right
      top bottom left right :
  getitem landmarks i_top = Ok top ->
  getitem landmarks i_bottom = Ok bottom ->
  getitem landmarks i_left = Ok left ->
  getitem landmarks i_right = Ok right ->
  calculate_eye_aspect_ratio landmarks [i_top; i_bottom; i_left; i_right] =
  Ok (if Rltb (distance left right) 0.001 then 1
      else distance top bottom / distance left right).
Proof.
  intros Ht Hb Hl Hr. unfold calculate_eye_aspect_ratio.
  rewrite (getitem_Ok_not_empty _ _ _ Ht).
  cbn [getitem nth_error bind]. rewrite Ht, Hb, Hl, Hr. cbn [bind].
  unfold distance. destruct (Rltb _ 0.001); reflexivity.
Qed.

Lemma mouth_ratio_distance landmarks upper lower left right :
  getitem landmarks UPPER_LIP = Ok upper ->
  getitem landmarks LOWER_LIP = Ok lower ->
  getitem landmarks LEFT_MOUTH = Ok left ->
  getitem landmarks RIGHT_MOUTH = Ok right ->
  calculate_mouth_aspect_ratio landmarks =
  Ok (if Rltb (distance left right) 0.001 then 0
      else distance upper lower / distance left right).
Proof.
  intros Hu Hlo Hl Hr. unfold calculate_mouth_aspect_ratio.
  rewrite (getitem_Ok_not_empty _ _ _ Hu).
  rewrite Hu, Hlo, Hl, Hr. cbn [bind].
  unfold distance. destruct (Rltb _ 0.001); reflexivity.
Qed.

Lemma face_length le re mo : List.length (face le re mo) = 478%nat.
Proof. unfold face. rewrite length_map, length_seq. reflexivity. Qed.

Lemma face_populated le re mo : populated (face le re mo).
Proof.
  unfold populated. rewrite face_length.
  unfold LANDMARK_INDICES, NOSE_TIP, LEFT_EYE_OUTER, LEFT_EYE_INNER,
    RIGHT_EYE_OUTER, RIGHT_EYE_INNER, LEFT_EYE_TOP, LEFT_EYE_BOTTOM,
    RIGHT_EYE_TOP, RIGHT_EYE_BOTTOM, UPPER_LIP, LOWER_LIP, LEFT_MOUTH,
    RIGHT_MOUTH, LEFT_EYEBROW, RIGHT_EYEBROW, CHIN, FOREHEAD.
  repeat (constructor; [lia |]). constructor.
Qed.

Lemma face_getitem le re mo i :
  (i < 478)%nat -> getitem (face le re mo) i = Ok (face_landmark le re mo i).
Proof.
  intros Hi. unfold getitem, face.
  rewrite nth_error_map, nth_error_seq.
  destruct (Nat.ltb_spec i 478); [reflexivity | lia].
Qed.

Lemma face_left_ear le re mo :
  0 <= le ->
  calculate_eye_aspect_ratio (face le re mo) LEFT_EYE = Ok (le / 0.1).
Proof.
  intros Hle. unfold LEFT_EYE.
  rewrite (eye_ratio_distance (face le re mo) _ _ _ _
             (mkFaceLandmark 0.3 (0.4 + le) 0) (mkFaceLandmark 0.3 0.4 0)
             (mkFaceLandmark 0.35 0.4 0) (mkFaceLandmark 0.25 0.4 0));
    try (rewrite face_getitem; [reflexivity | unfold LEFT_EYE_TOP,
           LEFT_EYE_BOTTOM, LEFT_EYE_INNER, LEFT_EYE_OUTER; lia]).
  assert (Hv : distance (mkFaceLandmark 0.3 (0.4 + le) 0) (mkFaceLandmark 0.3 0.4 0) = le)
    by (rewrite distance_vertical; cbn [x y]; lra).
  assert (Hh : distance (mkFaceLandmark 0.35 0.4 0) (mkFaceLandmark 0.25 0.4 0) = 0.1)
    by (rewrite distance_horizontal; cbn [x y]; lra).
  rewrite Hv, Hh, Rltb_false by lra. reflexivity.
Qed.

Lemma face_right_ear le re mo :
  0 <= re ->
  calculate_eye_aspect_ratio (face le re mo) RIGHT_EYE = Ok (re / 0.1).
Proof.
  intros Hre. unfold RIGHT_EYE.
  rewrite (eye_ratio_distance (face le re mo) _ _ _ _
             (mkFaceLandmark 0.7 (0.4 + re) 0) (mkFaceLandmark 0.7 0.4 0)
             (mkFaceLandmark 0.75 0.4 0) (mkFaceLandmark 0.65 0.4 0));
    try (rewrite face_getitem; [reflexivity | unfold RIGHT_EYE_TOP,
           RIGHT_EYE_BOTTOM, RIGHT_EYE_INNER, RIGHT_EYE_OUTER; lia]).
  assert (Hv : distance (mkFaceLandmark 0.7 (0.4 + re) 0) (mkFaceLandmark 0.7 0.4 0) = re)
    by (rewrite distance_vertical; cbn [x y]; lra).
  assert (Hh : distance (mkFaceLandmark 0.75 0.4 0) (mkFaceLandmark 0.65 0.4 0) = 0.1)
    by (rewrite distance_horizontal; cbn [x y]; lra).
  rewrite Hv, Hh, Rltb_false by lra. reflexivity.
Qed.

Lemma face_mar le re mo :
  0 <= mo ->
  calculate_mouth_aspect_ratio (face le re mo) = Ok (mo / 0.2).
Proof.
  intros Hmo.
  rewrite (mouth_ratio_distance (face le re mo)
             (mkFaceLandmark 0.5 (0.7 + mo) 0) (mkFaceLandmark 0.5 0.7 0)
             (mkFaceLandmark 0.6 0.7 0) (mkFaceLandmark 0.4 0.7 0));
    try (rewrite face_getitem; [reflexivity | unfold UPPER_LIP, LOWER_LIP,
           LEFT_MOUTH, RIGHT_MOUTH; lia]).
  assert (Hv : distance (mkFaceLandmark 0.5 (0.7 + mo) 0) (mkFaceLandmark 0.5 0.7 0) = mo)
    by (rewrite distance_vertical; cbn [x y]; lra).
  assert (Hh : distance (mkFaceLandmark 0.6 0.7 0) (mkFaceLandmark 0.4 0.7 0) = 0.2)
    by (rewrite distance_horizontal; cbn [x y]; lra).
  rewrite Hv, Hh, Rltb_false by lra. reflexivity.
Qed.

Lemma face_left_closed re mo : eye_closed (face 0 re mo) LEFT_EYE.
Proof. exists (0 / 0.1). split; [apply face_left_ear; lra | lra]. Qed.

Lemma face_right_closed le mo : eye_closed (face le 0 mo) RIGHT_EYE.
Proof. exists (0 / 0.1). split; [apply face_right_ear; lra | lra]. Qed.

Lemma face_left_open re mo : eye_open (face 0.03 re mo) LEFT_EYE.
Proof. exists (0.03 / 0.1). split; [apply face_left_ear; lra | lra]. Qed.

Lemma face_right_open le mo : eye_open (face le 0.03 mo) RIGHT_EYE.
Proof. exists (0.03 / 0.1). split; [apply face_right_ear; lra | lra]. Qed.

Lemma face_mouth_wide le re : mouth_wide (face le re 0.1).
Proof. exists (0.1 / 0.2). split; [apply face_mar; lra | lra]. Qed.

Lemma blink_both_on_third_frame_witness :
  exists self',
    detect_gestures (init "nose" false true 0)
      ([face 0 0 0; face 0 0 0; face 0 0 0] ++ repeat (face 0 0 0) 14) =
    Ok ([none; none; blink_both] ++ repeat none 14, self').
Proof.
  apply blink_both_on_third_frame.
  - repeat split.
  - repeat (constructor;
            [ split; [apply face_populated |];
              split; [apply face_left_closed | apply face_right_closed] |]).
    constructor.
  - apply Forall_forall. intros l Hl. apply repeat_spec in Hl. subst.
    apply face_populated.
  - apply repeat_length.
Defined.

Lemma face_tests le re mo :
  0 <= le -> 0 <= re -> 0 <= mo ->
  tests_of (face le re mo)
    (Rltb (le / 0.1) 0.15, Rltb (re / 0.1) 0.15, Rltb 0.4 (mo / 0.2)).
Proof.
  intros Hle Hre Hmo. split.
  - apply populated_not_empty, face_populated.
  - exists (le / 0.1), (re / 0.1), (mo / 0.2).
    rewrite face_left_ear, face_right_ear, face_mar by assumption. auto.
Qed.

(** ** Mouth open *)

(** C5. From fresh classifier state, six consecutive face-detected frames
    with the mouth aspect ratio above 0.4 and neither eye closed make the
    classifier return none five times and then mouth_open, and on each of
    the next 20 face-detected frames it returns none, whatever those
    frames show. *)
Theorem mouth_open_on_sixth_frame :
  forall self wide rest,
    fresh (gestures self) ->
    List.length wide = 6%nat ->
    Forall (fun landmarks =>
              populated landmarks /\
              eye_open landmarks LEFT_EYE /\
              eye_open landmarks RIGHT_EYE /\
              mouth_wide landmarks) wide ->
    Forall populated rest ->
    List.length rest = 20%nat ->
    exists self',
      detect_gestures self (wide ++ rest) =
      Ok (repeat none 5 ++ [mouth_open] ++ repeat none 20, self').
Proof.
  intros self wide rest Hfresh Hlen Hwide Hrest Hlenr.
  assert (Hw : Forall2 tests_of wide (repeat (false, false, true) 6)).
  { rewrite <- Hlen. clear Hlen.
    induction Hwide as [| f fs (P & L & R_ & M) _ IH]; [constructor |].
    destruct (populated_tests f P) as [[[l r] m] T].
    rewrite (tests_left_open _ _ _ _ T L), (tests_right_open _ _ _ _ T R_),
      (tests_mouth_wide _ _ _ _ T M) in T.
    constructor; assumption. }
  destruct (populated_all_tests rest Hrest) as [trest Trest].
  assert (Hl : List.length trest = 20%nat)
    by (rewrite <- (Forall2_length Trest); assumption).
  eexists.
  rewrite (detect_gestures_tests _ (repeat (false, false, true) 6 ++ trest))
    by (apply Forall2_app; assumption).
  f_equal. f_equal.
  rewrite recognize_all_app. cbn [fst snd].
  rewrite (fresh_inv _ Hfresh).
  destruct (recognize_all_cooldown trest
              (snd (recognize_all
                      (mkGestureState 0 0 0 (last_gesture (gestures self)) 0)
                      (repeat (false, false, true) 6)))
              ltac:(rewrite Hl; cbn; lia)) as [-> _].
  rewrite Hl. reflexivity.
Qed.

Lemma mouth_open_on_sixth_frame_witness :
  exists self',
    detect_gestures (init "nose" false true 0)
      (repeat (face 0.03 0.03 0.1) 6 ++ repeat (face 0.03 0.03 0.1) 20) =
    Ok (repeat none 5 ++ [mouth_open] ++ repeat none 20, self').
Proof.
  apply mouth_open_on_sixth_frame.
  - repeat split.
  - apply repeat_length.
  - apply Forall_forall. intros l Hl. apply repeat_spec in Hl. subst.
    split; [apply face_populated |].
    split; [apply face_left_open |].
    split; [apply face_right_open | apply face_mouth_wide].
  - apply Forall_forall. intros l Hl. apply repeat_spec in Hl. subst.
    apply face_populated.
  - apply repeat_length.
Defined.

(** ** Left wink *)

Lemma recognize_counters st lc rc mw :
  left_eye_closed_frames (snd (recognize st lc rc mw)) =
    (if lc then left_eye_closed_frames st + 1 else 0)%Z /\
  right_eye_closed_frames (snd (recognize st lc rc mw)) =
    (if rc then right_eye_closed_frames st + 1 else 0)%Z /\
  mouth_open_frames (snd (recognize st lc rc mw)) =
    (if mw then mouth_open_frames st + 1 else 0)%Z /\
  last_gesture (snd (recognize st lc rc mw)) = last_gesture st.
Proof.
  unfold recognize.
  repeat match goal with
         | |- context [if ?c then (_, _) else _] => destruct c
         end; cbn; auto.
Qed.

Lemma recognize_nonneg st lc rc mw :
  counters_nonneg st -> counters_nonneg (snd (recognize st lc rc mw)).
Proof.
  intros (Hl & Hr & Hm).
  destruct (recognize_counters st lc rc mw) as (El & Er & Em & _).
  unfold counters_nonneg. rewrite El, Er, Em.
  destruct lc, rc, mw; lia.
Qed.

Lemma recognize_all_nonneg tests : forall st,
  counters_nonneg st -> counters_nonneg (snd (recognize_all st tests)).
Proof.
  induction tests as [| [[lc rc] mw] tests IH]; intros st H; [exact H |].
  rewrite recognize_all_cons. cbn [snd]. apply IH, recognize_nonneg, H.
Qed.

(** With the right eye closed on the frame, the right run length is
    positive when the wink is tested, so blink_left is not returned. *)
Lemma recognize_no_left_wink st lc mw :
  counters_nonneg st -> fst (recognize st lc true mw) <> blink_left.
Proof.
  intros (Hl & Hr & Hm). unfold recognize.
  destruct (gesture_cooldown st >? 0)%Z; [discriminate |].
  destruct (_ && _); [discriminate |].
  destruct (Z.eqb_spec (right_eye_closed_frames st + 1) 0); [lia |].
  rewrite andb_false_r.
  destruct (_ && _); [discriminate |].
  destruct (_ >? 5)%Z; discriminate.
Qed.

(** C4, as the code has it. From fresh classifier state, four consecutive
    face-detected frames with the left eye closed and the right eye open
    make the classifier return none, none, none, blink_left; and in any
    run from fresh state, a frame on which the right eye is closed never
    returns blink_left (the right run length is tested on the frame of the
    emission; it restarts from 0 whenever the right eye is open). *)
Theorem blink_left_on_fourth_frame :
  (forall self f1 f2 f3 f4,
      fresh (gestures self) ->
      Forall (fun landmarks =>
                populated landmarks /\
                eye_closed landmarks LEFT_EYE /\
                eye_open landmarks RIGHT_EYE) [f1; f2; f3; f4] ->
      exists self',
        detect_gestures self [f1; f2; f3; f4] =
        Ok ([none; none; none; blink_left], self'))
  /\
  (forall self frames last,
      fresh (gestures self) ->
      Forall populated frames ->
      populated last ->
      eye_closed last RIGHT_EYE ->
      exists gs g self',
        detect_gestures self (frames ++ [last]) = Ok (gs ++ [g], self') /\
        List.length gs = List.length frames /\
        g <> blink_left).
Proof.
  split.
  - intros self f1 f2 f3 f4 Hfresh Hall.
    assert (Hw : exists m1 m2 m3 m4,
               Forall2 tests_of [f1; f2; f3; f4]
                 [(true, false, m1); (true, false, m2);
                  (true, false, m3); (true, false, m4)]).
    { inversion Hall as [| ? ? (P1 & L1 & R1) H1]; subst.
      inversion H1 as [| ? ? (P2 & L2 & R2) H2]; subst.
      inversion H2 as [| ? ? (P3 & L3 & R3) H3]; subst.
      inversion H3 as [| ? ? (P4 & L4 & R4) _]; subst.
      destruct (populated_tests f1 P1) as [[[l1 r1] m1] T1].
      destruct (populated_tests f2 P2) as [[[l2 r2] m2] T2].
      destruct (populated_tests f3 P3) as [[[l3 r3] m3] T3].
      destruct (populated_tests f4 P4) as [[[l4 r4] m4] T4].
      rewrite (tests_left_closed _ _ _ _ T1 L1), (tests_right_open _ _ _ _ T1 R1) in T1.
      rewrite (tests_left_closed _ _ _ _ T2 L2), (tests_right_open _ _ _ _ T2 R2) in T2.
      rewrite (tests_left_closed _ _ _ _ T3 L3), (tests_right_open _ _ _ _ T3 R3) in T3.
      rewrite (tests_left_closed _ _ _ _ T4 L4), (tests_right_open _ _ _ _ T4 R4) in T4.
      exists m1, m2, m3, m4. repeat (constructor; [assumption |]). constructor. }
    destruct Hw as (m1 & m2 & m3 & m4 & Hw).
    eexists. rewrite (detect_gestures_tests _ _ _ Hw).
    f_equal. f_equal. rewrite (fresh_inv _ Hfresh).
    destruct m1, m2, m3, m4; reflexivity.
  - intros self frames last Hfresh Hframes Hlast Hclosed.
    destruct (populated_all_tests frames Hframes) as [tests Htests].
    destruct (populated_tests last Hlast) as [[[lc rc] mw] Tlast].
    rewrite (tests_right_closed _ _ _ _ Tlast Hclosed) in Tlast.
    assert (Hall : Forall2 tests_of (frames ++ [last])
                     (tests ++ [(lc, true, mw)]))
      by (apply Forall2_app; [assumption | constructor; [assumption | constructor]]).
    rewrite (detect_gestures_tests _ _ _ Hall), recognize_all_app.
    cbn [fst snd]. rewrite recognize_all_cons. cbn [fst snd recognize_all].
    do 3 eexists. split; [reflexivity |]. split.
    + rewrite (Forall2_length Htests). clear.
      revert tests. generalize (gestures self).
      intros st tests. revert st.
      induction tests as [| [[l r] m] tests IH]; intros st; [reflexivity |].
      rewrite recognize_all_cons. cbn [fst List.length]. rewrite IH. reflexivity.
    + apply recognize_no_left_wink, recognize_all_nonneg.
      destruct Hfresh as (Hl & Hr & Hm & _).
      unfold counters_nonneg. rewrite Hl, Hr, Hm. lia.
Qed.

Lemma blink_left_on_fourth_frame_witness :
  (exists self',
      detect_gestures (init "nose" false true 0)
        [face 0 0.03 0; face 0 0.03 0; face 0 0.03 0; face 0 0.03 0] =
      Ok ([none; none; none; blink_left], self'))
  /\
  (exists gs g self',
      detect_gestures (init "nose" false true 0)
        ([face 0 0.03 0; face 0 0.03 0; face 0 0.03 0] ++ [face 0 0 0]) =
      Ok (gs ++ [g], self') /\
      List.length gs = 3%nat /\
      g <> blink_left).
Proof.
  destruct blink_left_on_fourth_frame as [Hwink Hstrict].
  split.
  - apply Hwink; [repeat split |].
    repeat (constructor;
            [ split; [apply face_populated |];
              split; [apply face_left_closed | apply face_right_open] |]).
    constructor.
  - apply (Hstrict (init "nose" false true 0)
             [face 0 0.03 0; face 0 0.03 0; face 0 0.03 0] (face 0 0 0)).
    + repeat split.
    + repeat (constructor; [apply face_populated |]). constructor.
    + apply face_populated.
    + apply face_right_closed.
Defined.

(** C4 as stated fails: the left eye is closed on four consecutive frames
    and the right eye is closed on the second of them, yet blink_left is
    returned on the fourth. *)
Lemma blink_left_after_right_eye_closed_frame :
  Forall (fun landmarks =>
            populated landmarks /\ eye_closed landmarks LEFT_EYE)
    [face 0 0.03 0; face 0 0 0; face 0 0.03 0; face 0 0.03 0] /\
  eye_closed (face 0 0 0) RIGHT_EYE /\
  exists self',
    detect_gestures (init "nose" false true 0)
      [face 0 0.03 0; face 0 0 0; face 0 0.03 0; face 0 0.03 0] =
    Ok ([none; none; none; blink_left], self').
Proof.
  split; [| split].
  - repeat (constructor;
            [ split; [apply face_populated | apply face_left_closed] |]).
    constructor.
  - apply face_right_closed.
  - assert (Ho : tests_of (face 0 0.03 0) (true, false, false)).
    { generalize (face_tests 0 0.03 0 ltac:(lra) ltac:(lra) ltac:(lra)).
      rewrite (Rltb_true (0 / 0.1) 0.15), (Rltb_false (0.03 / 0.1) 0.15),
        (Rltb_false 0.4 (0 / 0.2)) by lra.
      auto. }
    assert (Hc : tests_of (face 0 0 0) (true, true, false)).
    { generalize (face_tests 0 0 0 ltac:(lra) ltac:(lra) ltac:(lra)).
      rewrite (Rltb_true (0 / 0.1) 0.15), (Rltb_false 0.4 (0 / 0.2)) by lra.
      auto. }
    eexists.
    rewrite (detect_gestures_tests _
               [(true, false, false); (true, true, false);
                (true, false, false); (true, false, false)])
      by (repeat (constructor; [assumption |]); constructor).
    reflexivity.
Qed.

(** ** A held gesture repeats *)

Ltac case_test :=
  match goal with
  | |- context [(?a <? ?b)%Z] => destruct (Z.ltb_spec a b)
  | |- context [(?a >? ?b)%Z] => destruct (Z.gtb_spec a b)
  | |- context [(?a <=? ?b)%Z] => destruct (Z.leb_spec a b)
  | |- context [(?a =? ?b)%Z] => destruct (Z.eqb_spec a b)
  | |- context [if ?b then _ else _] => is_var b; destruct b
  end.








(** ** One frame *)

Lemma wrap_landmarks (l : list FaceLandmark) :
  map (fun lm => mkFaceLandmark (x lm) (y lm) (z lm)) l = l.
Proof.
  induction l as [| [? ? ?] l IH]; cbn; [| rewrite IH]; reflexivity.
Qed.


(** A frame on which no face is detected: the default record, the frame
    counted, nothing else touched. *)
Lemma get_tracking_point_mode self1 self2 landmarks w h :
  mode self1 = mode self2 ->
  get_tracking_point self1 landmarks w h = get_tracking_point self2 landmarks w h.
Proof.
  intros Hm. unfold get_tracking_point. rewrite Hm. reflexivity.
Qed.

Ltac tracker_fields :=
  cbn [mode show_preview cap_opened mediapipe gestures smoothing statistics
         with_statistics with_smoothing with_gestures smooth
         smooth_x smooth_y smoothing_factor frame_count start_time
         timestamp_ms r_x r_y r_gesture r_face_detected r_fps bind negb] in *.

Ltac finish_frame :=
  tracker_fields;
  destruct (Rltb 0 _);
  match goal with
  | |- context [?s && quit_key ?f] => destruct (s && quit_key f)
  end;
  first [ exists 0; reflexivity | eexists; reflexivity ].

(** A frame on which no face is detected: the default record, the frame
    counted, nothing else touched. *)
Lemma process_frame_no_point self f :
  cap_opened self = true ->
  ret f = true ->
  raw_point self f = Ok None ->
  exists fps,
    process_frame self f =
    Ok (if show_preview self && quit_key f then None
        else Some (mkTrackingRecord 0.5 0.5 none false fps),
        with_statistics self
          (mkStatistics (frame_count (statistics self) + 1)
             (start_time (statistics self))
             (timestamp_ms (statistics self) + 33))).
Proof.
  intros Hcap Hret Hraw. unfold process_frame, raw_point in *.
  destruct self as [m sp c mp gs sm st]. tracker_fields. subst c.
  rewrite Hret. tracker_fields.
  destruct mp.
  - destruct (face_landmarks f) as [| raw rest]; [finish_frame |].
    rewrite (get_tracking_point_mode _ (mkFaceTracker m sp true true gs sm st))
      by reflexivity.
    rewrite Hraw. finish_frame.
  - destruct (faces f) as [| [[[bx by_] w] h] rest]; [| discriminate].
    finish_frame.
Qed.

(** A frame with a raw point: both coordinates of the filter move by the
    moving-average step, the record carries the new smoothed point, and
    only the gesture state and the statistics change besides. *)
Lemma process_frame_point self f px py :
  cap_opened self = true ->
  ret f = true ->
  frame_populated f ->
  raw_point self f = Ok (Some (px, py)) ->
  let a := smoothing_factor (smoothing self) in
  let sx := smooth_x (smoothing self) * a + px * (1 - a) in
  let sy := smooth_y (smoothing self) * a + py * (1 - a) in
  exists g gs fps,
    process_frame self f =
    Ok (if show_preview self && quit_key f then None
        else Some (mkTrackingRecord sx sy g true fps),
        mkFaceTracker (mode self) (show_preview self) (cap_opened self)
          (mediapipe self) gs (mkSmoothing sx sy a)
          (mkStatistics (frame_count (statistics self) + 1)
             (start_time (statistics self))
             (timestamp_ms (statistics self) + 33))).
Proof.
  intros Hcap Hret Hpop Hraw a sx sy. subst a sx sy.
  unfold process_frame, raw_point, frame_populated in *.
  destruct self as [m sp c mp gs sm st]. tracker_fields. subst c.
  rewrite Hret. tracker_fields.
  destruct mp.
  - destruct (face_landmarks f) as [| raw rest]; [discriminate |].
    rewrite (get_tracking_point_mode _ (mkFaceTracker m sp true true gs sm st))
      by reflexivity.
    rewrite Hraw. tracker_fields.
    rewrite wrap_landmarks in *.
    destruct Hpop as [-> | Hpop]; [discriminate |].
    destruct (populated_tests raw Hpop) as [[[lc rc] mw] Ht].
    rewrite (detect_gesture_tests _ raw lc rc mw Ht). tracker_fields.
    exists (fst (recognize gs lc rc mw)), (snd (recognize gs lc rc mw)).
    finish_frame.
  - destruct (faces f) as [| [[[bx by_] w] h] rest]; [discriminate |].
    injection Hraw as <- <-.
    exists none, gs.
    finish_frame.
Qed.

Lemma process_frame_not_read self f :
  cap_opened self = false \/ ret f = false ->
  process_frame self f = Ok (None, self).
Proof.
  intros H. unfold process_frame.
  destruct (cap_opened self); [| reflexivity].
  destruct H as [H | ->]; [discriminate | reflexivity].
Qed.

Lemma get_tracking_point_populated self landmarks w h :
  populated landmarks ->
  exists px py, get_tracking_point self landmarks w h = Ok (Some (px, py)).
Proof.
  intros Hp. unfold get_tracking_point. rewrite (populated_not_empty _ Hp).
  destruct (mode self =? "nose")%string.
  { read_landmark Hp NOSE_TIP. eauto. }
  destruct (mode self =? "head")%string.
  { read_landmark Hp FOREHEAD. read_landmark Hp CHIN. eauto. }
  destruct (mode self =? "eyes")%string.
  { read_landmark Hp LEFT_EYE_INNER. read_landmark Hp LEFT_EYE_OUTER.
    read_landmark Hp RIGHT_EYE_INNER. read_landmark Hp RIGHT_EYE_OUTER. eauto. }
  destruct (mode self =? "mouth")%string.
  { read_landmark Hp LEFT_MOUTH. read_landmark Hp RIGHT_MOUTH.
    read_landmark Hp UPPER_LIP. read_landmark Hp LOWER_LIP. eauto. }
  eauto.
Qed.

(** On a populated frame the raw point is computed without an exception. *)
Lemma raw_point_total self f :
  frame_populated f -> exists p, raw_point self f = Ok p.
Proof.
  intros Hpop. unfold raw_point, frame_populated in *.
  destruct (mediapipe self).
  - destruct (face_landmarks f) as [| raw rest]; [eauto |].
    rewrite wrap_landmarks.
    destruct Hpop as [-> | Hpop]; [cbn; eauto |].
    destruct (get_tracking_point_populated self raw (frame_width f)
                (frame_height f) Hpop) as (px & py & ->).
    eauto.
  - destruct (faces f) as [| [[[bx by_] w] h] rest]; eauto.
Qed.

(** The raw point depends on the tracker through its configuration only. *)
Lemma raw_point_config self1 self2 f :
  mode self1 = mode self2 ->
  mediapipe self1 = mediapipe self2 ->
  raw_point self1 f = raw_point self2 f.
Proof.
  intros Hm Hmp. unfold raw_point. rewrite Hmp.
  destruct (mediapipe self2); [| reflexivity].
  destruct (face_landmarks f); [reflexivity |].
  apply get_tracking_point_mode, Hm.
Qed.

(** ** The smoothing filter *)

(** C1. The filter state is seeded at (0.5, 0.5) by the constructor (and
    [main] only sets the factor).  On a frame with a raw point (px, py),
    [process_frame] replaces the smoothed point by
    smoothed * a + raw * (1 - a), coordinate by coordinate, and keeps the
    factor [a]; on a frame with no raw point, whether not read or read
    with no face detected, the filter state afterwards is the filter state
    before. *)
Theorem smoothing_filter_update :
  (forall mode preview mp t0 alpha,
      smoothing (init mode preview mp t0) = mkSmoothing 0.5 0.5 0.3 /\
      smoothing (main_tracker mode preview mp t0 alpha)
      = mkSmoothing 0.5 0.5 alpha)
  /\
  (forall self f,
      frame_populated f ->
      exists result self',
        process_frame self f = Ok (result, self') /\
        (forall px py,
            cap_opened self = true ->
            ret f = true ->
            raw_point self f = Ok (Some (px, py)) ->
            let a := smoothing_factor (smoothing self) in
            smoothing self' =
            mkSmoothing (smooth_x (smoothing self) * a + px * (1 - a))
                        (smooth_y (smoothing self) * a + py * (1 - a))
                        a) /\
        (cap_opened self = false \/ ret f = false \/
         raw_point self f = Ok None ->
         smoothing self' = smoothing self)).
Proof.
  split; [intros; split; reflexivity |].
  intros self f Hpop.
  destruct (cap_opened self) eqn:Hcap.
  2:{ rewrite process_frame_not_read by auto.
      do 2 eexists. split; [reflexivity |].
      split; [discriminate | reflexivity]. }
  destruct (ret f) eqn:Hret.
  2:{ rewrite process_frame_not_read by auto.
      do 2 eexists. split; [reflexivity |].
      split; [discriminate | reflexivity]. }
  destruct (raw_point_total self f Hpop) as [[[px py] |] Hraw].
  - destruct (process_frame_point self f px py Hcap Hret Hpop Hraw)
      as (g & gs & fps & ->).
    do 2 eexists. split; [reflexivity |]. split.
    + intros px' py' _ _ E. rewrite Hraw in E. injection E as <- <-.
      reflexivity.
    + intros [E | [E | E]]; try discriminate.
      rewrite Hraw in E. discriminate.
  - destruct (process_frame_no_point self f Hcap Hret Hraw) as (fps & ->).
    do 2 eexists. split; [reflexivity |]. split.
    + intros px' py' _ _ E. rewrite Hraw in E. discriminate.
    + intros _. destruct self; reflexivity.
Qed.

Lemma point_face_populated px py : populated (point_face px py).
Proof.
  unfold populated, point_face. rewrite repeat_length.
  unfold LANDMARK_INDICES, NOSE_TIP, LEFT_EYE_OUTER, LEFT_EYE_INNER,
    RIGHT_EYE_OUTER, RIGHT_EYE_INNER, LEFT_EYE_TOP, LEFT_EYE_BOTTOM,
    RIGHT_EYE_TOP, RIGHT_EYE_BOTTOM, UPPER_LIP, LOWER_LIP, LEFT_MOUTH,
    RIGHT_MOUTH, LEFT_EYEBROW, RIGHT_EYEBROW, CHIN, FOREHEAD.
  repeat (constructor; [lia |]). constructor.
Qed.

Lemma point_frame_populated px py t :
  frame_populated (landmarks_frame [point_face px py] t).
Proof. right. apply point_face_populated. Qed.

Lemma point_frame_raw_point self px py t :
  mode self = "nose"%string ->
  mediapipe self = true ->
  raw_point self (landmarks_frame [point_face px py] t) = Ok (Some (px, py)).
Proof.
  intros Hm Hmp. unfold raw_point. rewrite Hmp.
  cbn [landmarks_frame face_landmarks]. rewrite wrap_landmarks.
  unfold get_tracking_point. rewrite Hm. reflexivity.
Qed.

Lemma empty_frame_raw_point self t :
  mediapipe self = true ->
  raw_point self (landmarks_frame [] t) = Ok None.
Proof. intros Hmp. unfold raw_point. rewrite Hmp. reflexivity. Qed.

Lemma smoothing_filter_update_witness :
  (exists result self',
      process_frame (main_tracker "nose" false true 0 0.5)
        (landmarks_frame [point_face 0.8 0.2] 1) = Ok (result, self') /\
      smoothing self' =
      mkSmoothing (0.5 * 0.5 + 0.8 * (1 - 0.5)) (0.5 * 0.5 + 0.2 * (1 - 0.5)) 0.5)
  /\
  (exists result self',
      process_frame (main_tracker "nose" false true 0 0.5)
        (landmarks_frame [] 1) = Ok (result, self') /\
      smoothing self' = mkSmoothing 0.5 0.5 0.5).
Proof.
  destruct smoothing_filter_update as [_ Hstep].
  split.
  - destruct (Hstep (main_tracker "nose" false true 0 0.5)
                (landmarks_frame [point_face 0.8 0.2] 1)
                (point_frame_populated _ _ _))
      as (result & self' & Hp & Hpoint & _).
    exists result, self'. split; [exact Hp |].
    apply (Hpoint 0.8 0.2);
      [reflexivity | reflexivity | apply point_frame_raw_point; reflexivity].
  - destruct (Hstep (main_tracker "nose" false true 0 0.5)
                (landmarks_frame [] 1) I)
      as (result & self' & Hp & _ & Hnone).
    exists result, self'. split; [exact Hp |].
    apply Hnone. right. right. apply empty_frame_raw_point. reflexivity.
Defined.

(** ** Frames with no face *)

(** C3, as the code has it. On every processed frame in which no face is
    detected, the record has face_detected false, gesture none and the
    fixed position x = 0.5, y = 0.5 of the default dictionary, while the
    smoothed point of the filter is held at its last value. *)
Theorem no_face_record :
  forall self f,
    cap_opened self = true ->
    processed self f ->
    raw_point self f = Ok None ->
    exists r self',
      process_frame self f = Ok (Some r, self') /\
      r_face_detected r = false /\
      r_gesture r = none /\
      r_x r = 0.5 /\
      r_y r = 0.5 /\
      smoothing self' = smoothing self.
Proof.
  intros self f Hcap [Hret Hquit] Hraw.
  destruct (process_frame_no_point self f Hcap Hret Hraw) as (fps & ->).
  rewrite Hquit. do 2 eexists. split; [reflexivity |].
  destruct self; repeat split.
Qed.

Lemma no_face_record_witness :
  exists r self',
    process_frame (main_tracker "nose" false true 0 0.5) (landmarks_frame [] 1)
    = Ok (Some r, self') /\
    r_face_detected r = false /\
    r_gesture r = none /\
    r_x r = 0.5 /\
    r_y r = 0.5 /\
    smoothing self' = mkSmoothing 0.5 0.5 0.5.
Proof.
  apply (no_face_record (main_tracker "nose" false true 0 0.5)
           (landmarks_frame [] 1)).
  - reflexivity.
  - split; reflexivity.
  - apply empty_frame_raw_point. reflexivity.
Defined.

(** C3 as stated fails: after a frame with the nose at (0.8, 0.2) and
    factor 0.5 the smoothed point is (0.65, 0.35); the record of the next
    frame, on which no face is detected, carries (0.5, 0.5) instead. *)
Lemma no_face_record_is_not_smoothed_point :
  exists r1 r2 self',
    run_loop (main_tracker "nose" false true 0 0.5)
      [landmarks_frame [point_face 0.8 0.2] 1; landmarks_frame [] 2]
    = Ok ([r1; r2], self') /\
    r_face_detected r2 = false /\
    smooth_x (smoothing self') = 0.65 /\
    smooth_y (smoothing self') = 0.35 /\
    r_x r2 <> smooth_x (smoothing self') /\
    r_y r2 <> smooth_y (smoothing self').
Proof.
  cbn [run_loop].
  destruct (process_frame_point (main_tracker "nose" false true 0 0.5)
              (landmarks_frame [point_face 0.8 0.2] 1) 0.8 0.2
              eq_refl eq_refl (point_frame_populated _ _ _)
              (point_frame_raw_point (main_tracker "nose" false true 0 0.5)
                 0.8 0.2 1 eq_refl eq_refl))
    as (g & gs & fps & ->).
  cbn [bind main_tracker init start with_smoothing show_preview andb mode
         cap_opened mediapipe smoothing statistics smooth_x smooth_y
         smoothing_factor frame_count start_time timestamp_ms].
  match goal with
  | |- context [process_frame ?s ?f] =>
      destruct (process_frame_no_point s f eq_refl eq_refl
                  (empty_frame_raw_point s 2 eq_refl)) as (fps2 & ->)
  end.
  cbn [bind show_preview andb with_statistics smoothing].
  do 3 eexists. split; [reflexivity |].
  tracker_fields. repeat split; lra.
Qed.

(** ** Range of the smoothed point *)

Lemma convex_in_unit (s p a : R) :
  0 <= a < 1 -> 0 <= s <= 1 -> 0 <= p <= 1 -> 0 <= s * a + p * (1 - a) <= 1.
Proof. intros Ha Hs Hp. split; nra. Qed.

Lemma run_loop_in_unit_square self0 frames : forall self,
  mode self = mode self0 ->
  mediapipe self = mediapipe self0 ->
  0 <= smoothing_factor (smoothing self) < 1 ->
  in_unit_square (smooth_x (smoothing self)) (smooth_y (smoothing self)) ->
  Forall frame_populated frames ->
  Forall (fun f => forall px py,
              raw_point self0 f = Ok (Some (px, py)) -> in_unit_square px py)
    frames ->
  exists rs self',
    run_loop self frames = Ok (rs, self') /\
    in_unit_square (smooth_x (smoothing self')) (smooth_y (smoothing self')) /\
    Forall (fun r => in_unit_square (r_x r) (r_y r)) rs.
Proof.
  induction frames as [| f frames IH];
    intros self Hm Hmp Ha Hin Hpop Hraw.
  - exists [], self. cbn. auto.
  - inversion Hpop as [| ? ? Hpf Hprest]; subst.
    inversion Hraw as [| ? ? Hrf Hrrest]; subst.
    cbn [run_loop].
    destruct (cap_opened self) eqn:Hcap.
    2:{ rewrite process_frame_not_read by auto. cbn [bind].
        exists [], self. auto. }
    destruct (ret f) eqn:Hret.
    2:{ rewrite process_frame_not_read by auto. cbn [bind].
        exists [], self. auto. }
    destruct (raw_point_total self f Hpf) as [[[px py] |] Hp].
    + destruct (process_frame_point self f px py Hcap Hret Hpf Hp)
        as (g & gs & fps & ->).
      assert (Hpin : in_unit_square px py)
        by (apply Hrf; rewrite <- Hp; apply raw_point_config; auto).
      destruct Hin as [Hx Hy]. destruct Hpin as [Hpx Hpy].
      pose proof (convex_in_unit _ _ _ Ha Hx Hpx) as Hsx.
      pose proof (convex_in_unit _ _ _ Ha Hy Hpy) as Hsy.
      destruct (show_preview self && quit_key f); cbn [bind].
      * eexists [], _. split; [reflexivity |]. split; [split; assumption | auto].
      * match goal with
        | |- context [run_loop ?s frames] =>
            destruct (IH s) as (rs & self' & -> & Hin' & Hrs); auto
        end.
        { split; assumption. }
        cbn [bind]. do 2 eexists. split; [reflexivity |].
        split; [exact Hin' |].
        constructor; [split; assumption | exact Hrs].
    + destruct (process_frame_no_point self f Hcap Hret Hp) as (fps & ->).
      destruct (show_preview self && quit_key f); cbn [bind].
      * eexists [], _. split; [reflexivity |].
        split; [destruct self; exact Hin | auto].
      * match goal with
        | |- context [run_loop ?s frames] =>
            destruct (IH s) as (rs & self' & -> & Hin' & Hrs); auto
        end; try (destruct self; assumption).
        cbn [bind]. do 2 eexists. split; [reflexivity |].
        split; [exact Hin' |].
        constructor; [| exact Hrs].
        cbn [r_x r_y]. split; lra.
Qed.

(** C8. For a factor in [0, 1) and frames whose raw points all lie in the
    unit square, the run from the constructed tracker never raises, the
    smoothed point lies in the unit square when the loop is left (hence
    after every frame, a prefix of the frames being such a run), and every
    record printed has x and y in [0, 1]. *)
Theorem smoothed_point_in_unit_square :
  forall mode preview mp t0 alpha frames,
    0 <= alpha < 1 ->
    Forall frame_populated frames ->
    Forall (fun f => forall px py,
                raw_point (main_tracker mode preview mp t0 alpha) f
                = Ok (Some (px, py)) ->
                in_unit_square px py) frames ->
    exists rs self',
      run_loop (main_tracker mode preview mp t0 alpha) frames = Ok (rs, self') /\
      in_unit_square (smooth_x (smoothing self')) (smooth_y (smoothing self')) /\
      Forall (fun r => in_unit_square (r_x r) (r_y r)) rs.
Proof.
  intros mode preview mp t0 alpha frames Ha Hpop Hraw.
  apply (run_loop_in_unit_square (main_tracker mode preview mp t0 alpha));
    try reflexivity; try assumption.
  cbn [main_tracker init start with_smoothing smoothing smooth_x smooth_y].
  split; lra.
Qed.

Lemma smoothed_point_in_unit_square_witness :
  exists rs self',
    run_loop (main_tracker "nose" false true 0 0.3)
      [landmarks_frame [point_face 0.8 0.2] 1;
       landmarks_frame [] 2;
       landmarks_frame [point_face 1 0] 3] = Ok (rs, self') /\
    in_unit_square (smooth_x (smoothing self')) (smooth_y (smoothing self')) /\
    Forall (fun r => in_unit_square (r_x r) (r_y r)) rs.
Proof.
  apply (smoothed_point_in_unit_square "nose" false true 0 0.3
           [landmarks_frame [point_face 0.8 0.2] 1;
            landmarks_frame [] 2;
            landmarks_frame [point_face 1 0] 3]).
  - lra.
  - constructor; [apply point_frame_populated |].
    constructor; [exact I |].
    constructor; [apply point_frame_populated | constructor].
  - constructor; [| constructor; [| constructor; [| constructor]]];
      intros px py.
    + rewrite (point_frame_raw_point (main_tracker "nose" false true 0 0.3)
                 0.8 0.2 1 eq_refl eq_refl).
      intros E. injection E as <- <-. split; lra.
    + rewrite (empty_frame_raw_point (main_tracker "nose" false true 0 0.3)
                 2 eq_refl).
      discriminate.
    + rewrite (point_frame_raw_point (main_tracker "nose" false true 0 0.3)
                 1 0 3 eq_refl eq_refl).
      intros E. injection E as <- <-. split; lra.
Defined.

(** * Further properties of the tracker *)

(** ** The tracking point *)

Lemma getitem_in_unit_square landmarks i lm :
  landmarks_in_unit_square landmarks ->
  getitem landmarks i = Ok lm ->
  in_unit_square (x lm) (y lm).
Proof.
  intros Hall Hget. unfold getitem in Hget.
  destruct (nth_error landmarks i) as [v |] eqn:E; [| discriminate].
  injection Hget as <-.
  unfold landmarks_in_unit_square in Hall. rewrite Forall_forall in Hall.
  apply Hall. exact (nth_error_In _ _ E).
Qed.

Ltac read_in_unit Hall :=
  match goal with
  | H : bind (getitem ?l ?i) _ = Ok _ |- _ =>
      let v := fresh "v" in
      let E := fresh "E" in
      let U := fresh "U" in
      destruct (getitem l i) as [v |] eqn:E; cbn [bind] in H;
      [ pose proof (getitem_in_unit_square _ _ _ Hall E) as U;
        unfold in_unit_square in U
      | discriminate ]
  end.

Lemma get_tracking_point_in_unit_square self landmarks w h px py :
  landmarks_in_unit_square landmarks ->
  get_tracking_point self landmarks w h = Ok (Some (px, py)) ->
  in_unit_square px py.
Proof.
  intros Hall Hp.
  unfold get_tracking_point in Hp.
  destruct (not_ landmarks); [discriminate |].
  destruct (mode self =? "nose")%string.
  { read_in_unit Hall. injection Hp as <- <-. exact U. }
  destruct (mode self =? "head")%string.
  { do 2 read_in_unit Hall. injection Hp as <- <-.
    unfold in_unit_square. lra. }
  destruct (mode self =? "eyes")%string.
  { do 4 read_in_unit Hall. injection Hp as <- <-.
    unfold in_unit_square. lra. }
  destruct (mode self =? "mouth")%string.
  { do 4 read_in_unit Hall. injection Hp as <- <-.
    unfold in_unit_square. lra. }
  injection Hp as <- <-. unfold in_unit_square. lra.
Qed.

(** X1. Whatever the mode, the tracking point of a landmark set whose
    landmarks all lie in the unit square lies in the unit square: each
    mode returns a landmark, a mean of landmarks, or the centre. *)
Theorem tracking_point_in_unit_square :
  forall self landmarks w h px py,
    landmarks_in_unit_square landmarks ->
    get_tracking_point self landmarks w h = Ok (Some (px, py)) ->
    in_unit_square px py.
Proof.
  intros self landmarks w h px py.
  apply get_tracking_point_in_unit_square.
Qed.

Lemma face_in_unit_square :
  landmarks_in_unit_square (face 0.03 0.03 0.1).
Proof.
  unfold landmarks_in_unit_square, face. apply Forall_forall.
  intros lm Hin. apply in_map_iff in Hin. destruct Hin as (i & <- & _).
  unfold face_landmark, in_unit_square.
  repeat match goal with
         | |- context [if ?c then _ else _] => destruct c
         end; cbn [x y]; lra.
Qed.

Lemma face_eyes_point :
  get_tracking_point (init "eyes" false true 0) (face 0.03 0.03 0.1) 640 480
  = Ok (Some ((((0.35 + 0.25) / 2) + ((0.75 + 0.65) / 2)) / 2,
              (((0.4 + 0.4) / 2) + ((0.4 + 0.4) / 2)) / 2)).
Proof.
  unfold get_tracking_point.
  rewrite (populated_not_empty _ (face_populated 0.03 0.03 0.1)).
  cbn [init mode String.eqb Ascii.eqb Bool.eqb].
  rewrite !face_getitem
    by (unfold LEFT_EYE_INNER, LEFT_EYE_OUTER, RIGHT_EYE_INNER,
          RIGHT_EYE_OUTER; lia).
  reflexivity.
Qed.

Lemma tracking_point_in_unit_square_witness :
  in_unit_square ((((0.35 + 0.25) / 2) + ((0.75 + 0.65) / 2)) / 2)
                 ((((0.4 + 0.4) / 2) + ((0.4 + 0.4) / 2)) / 2).
Proof.
  exact (tracking_point_in_unit_square (init "eyes" false true 0)
           (face 0.03 0.03 0.1) 640 480 _ _
           face_in_unit_square face_eyes_point).
Defined.

(** X2. [get_tracking_point] answers "no point" exactly on the empty
    landmark list: a non-empty list gives a point or raises, in every
    mode, and the empty list gives no point in every mode. *)
Theorem tracking_point_none_iff_empty :
  forall self landmarks w h,
    get_tracking_point self landmarks w h = Ok None <-> landmarks = [].
Proof.
  intros self landmarks w h. unfold get_tracking_point. split.
  - destruct landmarks as [| lm rest]; [reflexivity |].
    cbn [not_].
    repeat match goal with
           | |- (if ?c then _ else _) = _ -> _ => destruct c
           | |- bind ?m _ = _ -> _ => destruct m; cbn [bind]
           end; discriminate.
  - intros ->. reflexivity.
Qed.

(** ** The centre of a Haar box *)

Lemma box_centre_in_unit_square (bx by_ w h fw fh : Z) :
  (0 <= bx)%Z -> (0 <= w)%Z -> (bx + w <= fw)%Z ->
  (0 <= by_)%Z -> (0 <= h)%Z -> (by_ + h <= fh)%Z ->
  (0 < fw)%Z -> (0 < fh)%Z ->
  in_unit_square ((IZR bx + IZR w / 2) / IZR fw)
                 ((IZR by_ + IZR h / 2) / IZR fh).
Proof.
  intros Hx Hw Hxw Hy Hh Hyh HW HH.
  apply IZR_le in Hx, Hw, Hxw, Hy, Hh, Hyh.
  apply IZR_lt in HW, HH.
  rewrite plus_IZR in Hxw, Hyh.
  unfold in_unit_square. split; split.
  - apply Rmult_le_pos; [lra | left; apply Rinv_0_lt_compat; lra].
  - apply Rmult_le_reg_r with (IZR fw); [lra |].
    unfold Rdiv at 1. rewrite Rmult_assoc, Rinv_l by lra. lra.
  - apply Rmult_le_pos; [lra | left; apply Rinv_0_lt_compat; lra].
  - apply Rmult_le_reg_r with (IZR fh); [lra |].
    unfold Rdiv at 1. rewrite Rmult_assoc, Rinv_l by lra. lra.
Qed.

(** ** Reading a threshold test back *)

Lemma Rltb_true_inv (a b : R) : Rltb a b = true -> a < b.
Proof. unfold Rltb. destruct (Rlt_dec a b); [auto | discriminate]. Qed.

Lemma Rltb_false_inv (a b : R) : Rltb a b = false -> ~ a < b.
Proof. unfold Rltb. destruct (Rlt_dec a b); [discriminate | auto]. Qed.

(** ** Symmetry of the classifier *)

Lemma recognize_mirror_step st lc rc mw :
  recognize (mirror_state st) rc lc mw =
  (mirror_gesture (fst (recognize st lc rc mw)),
   mirror_state (snd (recognize st lc rc mw))).
Proof.
  destruct st as [l r m g c]. unfold recognize, mirror_state.
  cbn [left_eye_closed_frames right_eye_closed_frames mouth_open_frames
         last_gesture gesture_cooldown].
  destruct lc, rc, mw;
    repeat (case_test; cbn [andb fst snd mirror_gesture
                              left_eye_closed_frames right_eye_closed_frames
                              mouth_open_frames last_gesture gesture_cooldown]);
    try reflexivity; lia.
Qed.

(** X7. The classifier treats the two eyes alike: exchanging the left
    and right run lengths in the state and the left and right eye tests on
    every frame exchanges blink_left and blink_right in the labels, leaves
    the other labels as they are, and gives the exchanged final state. *)
Theorem recognize_mirror :
  forall tests st,
    recognize_all (mirror_state st) (map mirror_test tests) =
    (map mirror_gesture (fst (recognize_all st tests)),
     mirror_state (snd (recognize_all st tests))).
Proof.
  induction tests as [| [[lc rc] mw] tests IH]; intros st; [reflexivity |].
  cbn [map mirror_test]. rewrite !recognize_all_cons.
  rewrite recognize_mirror_step. cbn [fst snd map]. rewrite IH. reflexivity.
Qed.

(** ** Right wink *)

Lemma recognize_no_right_wink st rc mw :
  counters_nonneg st -> fst (recognize st true rc mw) <> blink_right.
Proof.
  intros (Hl & Hr & Hm). unfold recognize.
  destruct (gesture_cooldown st >? 0)%Z; [discriminate |].
  destruct (_ && _); [discriminate |].
  destruct (_ && _); [discriminate |].
  destruct (Z.eqb_spec (left_eye_closed_frames st + 1) 0); [lia |].
  rewrite andb_false_r.
  destruct (_ >? 5)%Z; discriminate.
Qed.

(** X6. From fresh classifier state, four consecutive face-detected
    frames with the right eye closed and the left eye open return none,
    none, none, blink_right; and in any run from fresh state a frame on
    which the left eye is closed never returns blink_right. *)
Theorem blink_right_on_fourth_frame :
  (forall self f1 f2 f3 f4,
      fresh (gestures self) ->
      Forall (fun landmarks =>
                populated landmarks /\
                eye_open landmarks LEFT_EYE /\
                eye_closed landmarks RIGHT_EYE) [f1; f2; f3; f4] ->
      exists self',
        detect_gestures self [f1; f2; f3; f4] =
        Ok ([none; none; none; blink_right], self'))
  /\
  (forall self frames last,
      fresh (gestures self) ->
      Forall populated frames ->
      populated last ->
      eye_closed last LEFT_EYE ->
      exists gs g self',
        detect_gestures self (frames ++ [last]) = Ok (gs ++ [g], self') /\
        List.length gs = List.length frames /\
        g <> blink_right).
Proof.
  split.
  - intros self f1 f2 f3 f4 Hfresh Hall.
    assert (Hw : exists m1 m2 m3 m4,
               Forall2 tests_of [f1; f2; f3; f4]
                 [(false, true, m1); (false, true, m2);
                  (false, true, m3); (false, true, m4)]).
    { inversion Hall as [| ? ? (P1 & L1 & R1) H1]; subst.
      inversion H1 as [| ? ? (P2 & L2 & R2) H2]; subst.
      inversion H2 as [| ? ? (P3 & L3 & R3) H3]; subst.
      inversion H3 as [| ? ? (P4 & L4 & R4) _]; subst.
      destruct (populated_tests f1 P1) as [[[l1 r1] m1] T1].
      destruct (populated_tests f2 P2) as [[[l2 r2] m2] T2].
      destruct (populated_tests f3 P3) as [[[l3 r3] m3] T3].
      destruct (populated_tests f4 P4) as [[[l4 r4] m4] T4].
      rewrite (tests_left_open _ _ _ _ T1 L1), (tests_right_closed _ _ _ _ T1 R1) in T1.
      rewrite (tests_left_open _ _ _ _ T2 L2), (tests_right_closed _ _ _ _ T2 R2) in T2.
      rewrite (tests_left_open _ _ _ _ T3 L3), (tests_right_closed _ _ _ _ T3 R3) in T3.
      rewrite (tests_left_open _ _ _ _ T4 L4), (tests_right_closed _ _ _ _ T4 R4) in T4.
      exists m1, m2, m3, m4. repeat (constructor; [assumption |]). constructor. }
    destruct Hw as (m1 & m2 & m3 & m4 & Hw).
    eexists. rewrite (detect_gestures_tests _ _ _ Hw).
    f_equal. f_equal. rewrite (fresh_inv _ Hfresh).
    destruct m1, m2, m3, m4; reflexivity.
  - intros self frames last Hfresh Hframes Hlast Hclosed.
    destruct (populated_all_tests frames Hframes) as [tests Htests].
    destruct (populated_tests last Hlast) as [[[lc rc] mw] Tlast].
    rewrite (tests_left_closed _ _ _ _ Tlast Hclosed) in Tlast.
    assert (Hall : Forall2 tests_of (frames ++ [last])
                     (tests ++ [(true, rc, mw)]))
      by (apply Forall2_app; [assumption | constructor; [assumption | constructor]]).
    rewrite (detect_gestures_tests _ _ _ Hall), recognize_all_app.
    cbn [fst snd]. rewrite recognize_all_cons. cbn [fst snd recognize_all].
    do 3 eexists. split; [reflexivity |]. split.
    + rewrite (Forall2_length Htests). clear.
      revert tests. generalize (gestures self).
      intros st tests. revert st.
      induction tests as [| [[l r] m] tests IH]; intros st; [reflexivity |].
      rewrite recognize_all_cons. cbn [fst List.length]. rewrite IH. reflexivity.
    + apply recognize_no_right_wink, recognize_all_nonneg.
      destruct Hfresh as (Hl & Hr & Hm & _).
      unfold counters_nonneg. rewrite Hl, Hr, Hm. lia.
Qed.

Lemma blink_right_on_fourth_frame_witness :
  (exists self',
      detect_gestures (init "nose" false true 0)
        [face 0.03 0 0; face 0.03 0 0; face 0.03 0 0; face 0.03 0 0] =
      Ok ([none; none; none; blink_right], self'))
  /\
  (exists gs g self',
      detect_gestures (init "nose" false true 0)
        ([face 0.03 0 0; face 0.03 0 0; face 0.03 0 0] ++ [face 0 0 0]) =
      Ok (gs ++ [g], self') /\
      List.length gs = 3%nat /\
      g <> blink_right).
Proof.
  destruct blink_right_on_fourth_frame as [Hwink Hstrict].
  split.
  - apply (Hwink (init "nose" false true 0)
             (face 0.03 0 0) (face 0.03 0 0) (face 0.03 0 0) (face 0.03 0 0));
      [repeat split |].
    repeat (constructor;
            [ split; [apply face_populated |];
              split; [apply face_left_open | apply face_right_closed] |]).
    constructor.
  - apply (Hstrict (init "nose" false true 0)
             [face 0.03 0 0; face 0.03 0 0; face 0.03 0 0] (face 0 0 0)).
    + repeat split.
    + repeat (constructor; [apply face_populated |]). constructor.
    + apply face_populated.
    + apply face_left_closed.
Defined.

(** ** Spacing of emissions *)

Lemma recognize_all_length tests : forall st,
  List.length (fst (recognize_all st tests)) = List.length tests.
Proof.
  induction tests as [| [[lc rc] mw] tests IH]; intros st; [reflexivity |].
  rewrite recognize_all_cons. cbn [fst List.length]. rewrite IH. reflexivity.
Qed.

(** A label other than none leaves the cooldown at 15, or 20 for
    mouth_open. *)
Lemma recognize_emission_cooldown st lc rc mw :
  fst (recognize st lc rc mw) <> none ->
  gesture_cooldown (snd (recognize st lc rc mw)) =
  cooldown_set (fst (recognize st lc rc mw)).
Proof.
  unfold recognize.
  repeat match goal with
         | |- context [if ?c then (_, _) else _] => destruct c
         end; cbn [fst snd gesture_cooldown cooldown_set];
    intros H; try reflexivity; contradiction.
Qed.

Lemma silent_prefix tests : forall n st,
  (Z.of_nat n <= gesture_cooldown st)%Z ->
  Forall (fun g => g = none) (firstn n (fst (recognize_all st tests))).
Proof.
  induction tests as [| [[lc rc] mw] tests IH]; intros n st Hn.
  - cbn. rewrite firstn_nil. constructor.
  - destruct n as [| n]; [constructor |].
    rewrite recognize_all_cons. cbn [fst firstn].
    destruct (recognize_cooldown st lc rc mw) as [Hg Hc]; [lia |].
    constructor; [exact Hg |]. apply IH. lia.
Qed.

(** X8. From any tracker state, a face-detected frame that returns a
    gesture is followed by at least 15 face-detected frames that return
    none, and by at least 20 when the gesture is mouth_open, whatever
    those frames show: two emissions are never closer than 16 frames. *)
Theorem emission_spacing :
  forall self f rest,
    Forall populated (f :: rest) ->
    exists g gs self',
      detect_gestures self (f :: rest) = Ok (g :: gs, self') /\
      List.length gs = List.length rest /\
      (g <> none -> Forall (fun g' => g' = none) (firstn 15 gs)) /\
      (g = mouth_open -> Forall (fun g' => g' = none) (firstn 20 gs)).
Proof.
  intros self f rest Hall.
  destruct (populated_all_tests _ Hall) as [tests Htests].
  inversion Htests as [| ? [[lc rc] mw] ? ts Ht Hts]; subst.
  rewrite (detect_gestures_tests _ _ _ Htests), recognize_all_cons.
  cbn [fst snd]. do 3 eexists. split; [reflexivity |].
  split; [rewrite recognize_all_length; symmetry; exact (Forall2_length Hts) |].
  split.
  - intros Hg. apply silent_prefix.
    rewrite (recognize_emission_cooldown _ _ _ _ Hg).
    destruct (fst (recognize (gestures self) lc rc mw)); cbn; lia.
  - intros Hg. apply silent_prefix.
    rewrite recognize_emission_cooldown by (rewrite Hg; discriminate).
    rewrite Hg. cbn. lia.
Qed.

Lemma emission_spacing_witness :
  exists g gs self',
    detect_gestures
      (with_gestures (init "nose" false true 0) (mkGestureState 2 2 0 none 0))
      (face 0 0 0 :: repeat (face 0 0 0) 20) = Ok (g :: gs, self') /\
    List.length gs = List.length (repeat (face 0 0 0) 20) /\
    (g <> none -> Forall (fun g' => g' = none) (firstn 15 gs)) /\
    (g = mouth_open -> Forall (fun g' => g' = none) (firstn 20 gs)).
Proof.
  apply (emission_spacing
           (with_gestures (init "nose" false true 0)
              (mkGestureState 2 2 0 none 0))
           (face 0 0 0) (repeat (face 0 0 0) 20)).
  constructor; [apply face_populated |].
  apply Forall_forall. intros l Hl. apply repeat_spec in Hl. subst.
  apply face_populated.
Defined.

(** ** Bounds on the classifier state *)

Lemma recognize_bounds n st lc rc mw :
  (0 <= n)%Z ->
  (0 <= gesture_cooldown st <= 20)%Z ->
  (0 <= left_eye_closed_frames st <= n)%Z ->
  (0 <= right_eye_closed_frames st <= n)%Z ->
  (0 <= mouth_open_frames st <= n)%Z ->
  (0 <= gesture_cooldown (snd (recognize st lc rc mw)) <= 20)%Z /\
  (0 <= left_eye_closed_frames (snd (recognize st lc rc mw)) <= n + 1)%Z /\
  (0 <= right_eye_closed_frames (snd (recognize st lc rc mw)) <= n + 1)%Z /\
  (0 <= mouth_open_frames (snd (recognize st lc rc mw)) <= n + 1)%Z.
Proof.
  intros Hn Hc Hl Hr Hm.
  destruct (recognize_counters st lc rc mw) as (El & Er & Em & _).
  rewrite El, Er, Em.
  split; [| destruct lc, rc, mw; lia].
  unfold recognize.
  repeat (case_test; cbn [andb fst snd gesture_cooldown]); lia.
Qed.

Lemma recognize_all_bounds tests : forall n st,
  (0 <= gesture_cooldown st <= 20)%Z ->
  (0 <= left_eye_closed_frames st <= Z.of_nat n)%Z ->
  (0 <= right_eye_closed_frames st <= Z.of_nat n)%Z ->
  (0 <= mouth_open_frames st <= Z.of_nat n)%Z ->
  let st' := snd (recognize_all st tests) in
  let n' := Z.of_nat (n + List.length tests) in
  (0 <= gesture_cooldown st' <= 20)%Z /\
  (0 <= left_eye_closed_frames st' <= n')%Z /\
  (0 <= right_eye_closed_frames st' <= n')%Z /\
  (0 <= mouth_open_frames st' <= n')%Z.
Proof.
  induction tests as [| [[lc rc] mw] tests IH]; intros n st Hc Hl Hr Hm.
  - cbn. rewrite Nat.add_0_r. auto.
  - rewrite recognize_all_cons. cbn [snd List.length].
    destruct (recognize_bounds (Z.of_nat n) st lc rc mw ltac:(lia) Hc Hl Hr Hm)
      as (Hc' & Hl' & Hr' & Hm').
    replace (Z.of_nat n + 1)%Z with (Z.of_nat (S n)) in Hl', Hr', Hm' by lia.
    replace (n + S (List.length tests))%nat
      with (S n + List.length tests)%nat by lia.
    exact (IH (S n) _ Hc' Hl' Hr' Hm').
Qed.

(** X10. In a run of face-detected frames from fresh classifier state
    the cooldown stays between 0 and 20, and each run length stays between
    0 and the number of frames seen. *)
Theorem classifier_state_bounds :
  forall self frames,
    fresh (gestures self) ->
    Forall populated frames ->
    exists gs self',
      detect_gestures self frames = Ok (gs, self') /\
      List.length gs = List.length frames /\
      (0 <= gesture_cooldown (gestures self') <= 20)%Z /\
      (0 <= left_eye_closed_frames (gestures self')
       <= Z.of_nat (List.length frames))%Z /\
      (0 <= right_eye_closed_frames (gestures self')
       <= Z.of_nat (List.length frames))%Z /\
      (0 <= mouth_open_frames (gestures self')
       <= Z.of_nat (List.length frames))%Z.
Proof.
  intros self frames (Hl & Hr & Hm & Hc) Hall.
  destruct (populated_all_tests _ Hall) as [tests Htests].
  rewrite (detect_gestures_tests _ _ _ Htests).
  do 2 eexists. split; [reflexivity |].
  split; [rewrite recognize_all_length; symmetry; exact (Forall2_length Htests) |].
  cbn [gestures with_gestures]. rewrite (Forall2_length Htests).
  apply (recognize_all_bounds tests 0 (gestures self)); lia.
Qed.

Lemma classifier_state_bounds_witness :
  exists gs self',
    detect_gestures (init "nose" false true 0) (repeat (face 0 0 0.1) 30)
    = Ok (gs, self') /\
    List.length gs = List.length (repeat (face 0 0 0.1) 30) /\
    (0 <= gesture_cooldown (gestures self') <= 20)%Z /\
    (0 <= left_eye_closed_frames (gestures self')
     <= Z.of_nat (List.length (repeat (face 0 0 0.1) 30)))%Z /\
    (0 <= right_eye_closed_frames (gestures self')
     <= Z.of_nat (List.length (repeat (face 0 0 0.1) 30)))%Z /\
    (0 <= mouth_open_frames (gestures self')
     <= Z.of_nat (List.length (repeat (face 0 0 0.1) 30)))%Z.
Proof.
  apply (classifier_state_bounds (init "nose" false true 0)
           (repeat (face 0 0 0.1) 30)).
  - repeat split.
  - apply Forall_forall. intros l Hl. apply repeat_spec in Hl. subst.
    apply face_populated.
Defined.

(** ** What an emission is backed by *)

(** A run length of [n] after a run from 0 means the last [n] frames all
    passed the test the run length counts. *)
Lemma run_length_suffix (cnt : GestureState -> Z) (sel : bool * bool * bool -> bool) :
  (forall st lc rc mw,
      cnt (snd (recognize st lc rc mw)) =
      if sel (lc, rc, mw) then (cnt st + 1)%Z else 0%Z) ->
  forall n tests st,
    cnt st = 0%Z ->
    (Z.of_nat n <= cnt (snd (recognize_all st tests)))%Z ->
    (n <= List.length tests)%nat /\
    Forall (fun t => sel t = true) (skipn (List.length tests - n) tests).
Proof.
  intros Hstep n. induction n as [| n IH]; intros tests st H0 Hn.
  - split; [lia |]. rewrite Nat.sub_0_r, skipn_all. constructor.
  - destruct (exists_last (l := tests)) as (ts & [[lc rc] mw] & ->).
    { intros ->. cbn in Hn. rewrite H0 in Hn. lia. }
    rewrite recognize_all_app in Hn. cbn [snd] in Hn.
    rewrite recognize_all_cons in Hn. cbn [snd recognize_all] in Hn.
    rewrite Hstep in Hn.
    destruct (sel (lc, rc, mw)) eqn:Hsel; [| lia].
    destruct (IH ts st H0 ltac:(lia)) as [Hlen Hall].
    rewrite length_app. cbn [List.length]. split; [lia |].
    replace (List.length ts + 1 - S n)%nat with (List.length ts - n)%nat by lia.
    rewrite skipn_app.
    replace (List.length ts - n - List.length ts)%nat with 0%nat by lia.
    cbn [skipn]. apply Forall_app. split; [exact Hall |].
    constructor; [exact Hsel | constructor].
Qed.

Lemma left_suffix n tests st :
  left_eye_closed_frames st = 0%Z ->
  (Z.of_nat n <= left_eye_closed_frames (snd (recognize_all st tests)))%Z ->
  (n <= List.length tests)%nat /\
  Forall (fun t => fst (fst t) = true) (skipn (List.length tests - n) tests).
Proof.
  apply (run_length_suffix left_eye_closed_frames (fun t => fst (fst t))).
  intros st' lc rc mw. apply recognize_counters.
Qed.

Lemma right_suffix n tests st :
  right_eye_closed_frames st = 0%Z ->
  (Z.of_nat n <= right_eye_closed_frames (snd (recognize_all st tests)))%Z ->
  (n <= List.length tests)%nat /\
  Forall (fun t => snd (fst t) = true) (skipn (List.length tests - n) tests).
Proof.
  apply (run_length_suffix right_eye_closed_frames (fun t => snd (fst t))).
  intros st' lc rc mw. apply recognize_counters.
Qed.

Lemma mouth_suffix n tests st :
  mouth_open_frames st = 0%Z ->
  (Z.of_nat n <= mouth_open_frames (snd (recognize_all st tests)))%Z ->
  (n <= List.length tests)%nat /\
  Forall (fun t => snd t = true) (skipn (List.length tests - n) tests).
Proof.
  apply (run_length_suffix mouth_open_frames (fun t => snd t)).
  intros st' lc rc mw. apply recognize_counters.
Qed.

(** The run lengths behind each label. *)
Lemma recognize_label_counters st lc rc mw :
  let g := fst (recognize st lc rc mw) in
  let st' := snd (recognize st lc rc mw) in
  (g = blink_both ->
   (3 <= left_eye_closed_frames st')%Z /\ (3 <= right_eye_closed_frames st')%Z) /\
  (g = blink_left ->
   (4 <= left_eye_closed_frames st')%Z /\ right_eye_closed_frames st' = 0%Z) /\
  (g = blink_right ->
   (4 <= right_eye_closed_frames st')%Z /\ left_eye_closed_frames st' = 0%Z) /\
  (g = mouth_open -> (6 <= mouth_open_frames st')%Z).
Proof.
  cbv zeta. unfold recognize.
  destruct lc, rc, mw;
    repeat (case_test;
            cbn [andb fst snd left_eye_closed_frames right_eye_closed_frames
                   mouth_open_frames]);
    (split; [| split; [| split]]); intros Hlabel; try discriminate; lia.
Qed.

Lemma last_recognize_all ts lc rc mw st :
  last (fst (recognize_all st (ts ++ [(lc, rc, mw)]))) none =
  fst (recognize (snd (recognize_all st ts)) lc rc mw) /\
  snd (recognize_all st (ts ++ [(lc, rc, mw)])) =
  snd (recognize (snd (recognize_all st ts)) lc rc mw).
Proof.
  rewrite recognize_all_app. cbn [fst snd].
  rewrite recognize_all_cons. cbn [fst snd recognize_all].
  split; [apply last_last | reflexivity].
Qed.

Lemma Forall2_skipn_impl {A B : Type} (R_ : A -> B -> Prop)
      (P : A -> Prop) (Q : B -> Prop) :
  (forall a b, R_ a b -> Q b -> P a) ->
  forall l1 l2 k,
    Forall2 R_ l1 l2 -> Forall Q (skipn k l2) -> Forall P (skipn k l1).
Proof.
  intros Himp l1 l2 k H. revert k.
  induction H as [| a b l1 l2 Hab _ IH]; intros k HQ.
  - rewrite skipn_nil. constructor.
  - destruct k as [| k]; cbn [skipn] in *.
    + inversion HQ; subst. constructor; [eauto |].
      apply (IH 0%nat). assumption.
    + apply IH. assumption.
Qed.

Lemma tests_of_left_true landmarks t :
  tests_of landmarks t -> fst (fst t) = true -> eye_closed landmarks LEFT_EYE.
Proof.
  intros [_ (el & er & m & Hl & Hr & Hm & ->)] H. cbn in H.
  exists el. split; [exact Hl | exact (Rltb_true_inv _ _ H)].
Qed.

Lemma tests_of_right_true landmarks t :
  tests_of landmarks t -> snd (fst t) = true -> eye_closed landmarks RIGHT_EYE.
Proof.
  intros [_ (el & er & m & Hl & Hr & Hm & ->)] H. cbn in H.
  exists er. split; [exact Hr | exact (Rltb_true_inv _ _ H)].
Qed.

Lemma tests_of_mouth_true landmarks t :
  tests_of landmarks t -> snd t = true -> mouth_wide landmarks.
Proof.
  intros [_ (el & er & m & Hl & Hr & Hm & ->)] H. cbn in H.
  exists m. split; [exact Hm | exact (Rltb_true_inv _ _ H)].
Qed.

Lemma tests_of_left_false landmarks t :
  tests_of landmarks t -> fst (fst t) = false -> eye_open landmarks LEFT_EYE.
Proof.
  intros [_ (el & er & m & Hl & Hr & Hm & ->)] H. cbn in H.
  exists el. split; [exact Hl | exact (Rltb_false_inv _ _ H)].
Qed.

Lemma tests_of_right_false landmarks t :
  tests_of landmarks t -> snd (fst t) = false -> eye_open landmarks RIGHT_EYE.
Proof.
  intros [_ (el & er & m & Hl & Hr & Hm & ->)] H. cbn in H.
  exists er. split; [exact Hr | exact (Rltb_false_inv _ _ H)].
Qed.

Lemma skipn_last {A : Type} (l : list A) (a : A) :
  skipn (List.length (l ++ [a]) - 1) (l ++ [a]) = [a].
Proof.
  rewrite length_app. cbn [List.length].
  replace (List.length l + 1 - 1)%nat with (List.length l) by lia.
  rewrite skipn_app, skipn_all, Nat.sub_diag. reflexivity.
Qed.

(** X9. In a run of face-detected frames from fresh classifier state,
    a label is backed by the frames before it: if the last label is
    blink_both, the run has at least 3 frames and both eyes are closed on
    its last 3; if it is blink_left (blink_right), the run has at least 4
    frames, the left (right) eye is closed on its last 4 and the other
    eye is open on the last one; if it is mouth_open, the run has at least 6 frames and the mouth is open on its
    last 6. *)
Theorem emission_backed_by_frames :
  forall self frames,
    fresh (gestures self) ->
    Forall populated frames ->
    exists gs self',
      detect_gestures self frames = Ok (gs, self') /\
      (last gs none = blink_both ->
       (3 <= List.length frames)%nat /\
       Forall (fun landmarks =>
                 eye_closed landmarks LEFT_EYE /\ eye_closed landmarks RIGHT_EYE)
         (skipn (List.length frames - 3) frames)) /\
      (last gs none = blink_left ->
       (4 <= List.length frames)%nat /\
       Forall (fun landmarks => eye_closed landmarks LEFT_EYE)
         (skipn (List.length frames - 4) frames) /\
       Forall (fun landmarks => eye_open landmarks RIGHT_EYE)
         (skipn (List.length frames - 1) frames)) /\
      (last gs none = blink_right ->
       (4 <= List.length frames)%nat /\
       Forall (fun landmarks => eye_closed landmarks RIGHT_EYE)
         (skipn (List.length frames - 4) frames) /\
       Forall (fun landmarks => eye_open landmarks LEFT_EYE)
         (skipn (List.length frames - 1) frames)) /\
      (last gs none = mouth_open ->
       (6 <= List.length frames)%nat /\
       Forall mouth_wide (skipn (List.length frames - 6) frames)).
Proof.
  intros self frames (Hl & Hr & Hm & Hc) Hall.
  destruct (populated_all_tests _ Hall) as [tests Htests].
  assert (Hnonneg : forall ts,
             counters_nonneg (snd (recognize_all (gestures self) ts))).
  { intros ts. apply recognize_all_nonneg.
    unfold counters_nonneg. rewrite Hl, Hr, Hm. lia. }
  rewrite (detect_gestures_tests _ _ _ Htests).
  do 2 eexists. split; [reflexivity |]. cbn [fst].
  rewrite (Forall2_length Htests).
  destruct tests as [| t0 tests0] using rev_ind.
  { cbn. repeat split; discriminate. }
  clear IHtests0. destruct t0 as [[lc rc] mw].
  destruct (last_recognize_all tests0 lc rc mw (gestures self)) as [-> Hst].
  set (tests := tests0 ++ [(lc, rc, mw)]) in *.
  destruct (recognize_label_counters
              (snd (recognize_all (gestures self) tests0)) lc rc mw)
    as (Hboth & Hleft & Hright & Hmouth).
  rewrite <- Hst in Hboth, Hleft, Hright, Hmouth.
  split; [| split; [| split]]; intros Hg.
  - destruct (Hboth Hg) as [H3l H3r].
    destruct (left_suffix 3 tests _ Hl ltac:(lia)) as [Hlen HL].
    destruct (right_suffix 3 tests _ Hr ltac:(lia)) as [_ HR].
    split; [exact Hlen |].
    apply Forall_and.
    + exact (Forall2_skipn_impl _ _ _ tests_of_left_true _ _ _ Htests HL).
    + exact (Forall2_skipn_impl _ _ _ tests_of_right_true _ _ _ Htests HR).
  - destruct (Hleft Hg) as [H4 H0].
    destruct (left_suffix 4 tests _ Hl ltac:(lia)) as [Hlen HL].
    split; [exact Hlen |]. split.
    + exact (Forall2_skipn_impl _ _ _ tests_of_left_true _ _ _ Htests HL).
    + apply (Forall2_skipn_impl _ _ _ tests_of_right_false _ _ _ Htests).
      unfold tests. rewrite skipn_last. constructor; [| constructor].
      cbn [fst snd]. rewrite Hst in H0.
      destruct (recognize_counters
                  (snd (recognize_all (gestures self) tests0)) lc rc mw)
        as (_ & Er & _).
      rewrite Er in H0. destruct rc; [| reflexivity].
      destruct (Hnonneg tests0) as (_ & Hrn & _). lia.
  - destruct (Hright Hg) as [H4 H0].
    destruct (right_suffix 4 tests _ Hr ltac:(lia)) as [Hlen HR].
    split; [exact Hlen |]. split.
    + exact (Forall2_skipn_impl _ _ _ tests_of_right_true _ _ _ Htests HR).
    + apply (Forall2_skipn_impl _ _ _ tests_of_left_false _ _ _ Htests).
      unfold tests. rewrite skipn_last. constructor; [| constructor].
      cbn [fst snd]. rewrite Hst in H0.
      destruct (recognize_counters
                  (snd (recognize_all (gestures self) tests0)) lc rc mw)
        as (El & _).
      rewrite El in H0. destruct lc; [| reflexivity].
      destruct (Hnonneg tests0) as (Hln & _). lia.
  - pose proof (Hmouth Hg) as H6.
    destruct (mouth_suffix 6 tests _ Hm ltac:(lia)) as [Hlen HM].
    split; [exact Hlen |].
    exact (Forall2_skipn_impl _ _ _ tests_of_mouth_true _ _ _ Htests HM).
Qed.

Lemma emission_backed_by_frames_witness :
  exists gs self',
    detect_gestures (init "nose" false true 0) (repeat (face 0 0 0) 3)
    = Ok (gs, self') /\
    (last gs none = blink_both ->
     (3 <= List.length (repeat (face 0 0 0) 3))%nat /\
     Forall (fun landmarks =>
               eye_closed landmarks LEFT_EYE /\ eye_closed landmarks RIGHT_EYE)
       (skipn (List.length (repeat (face 0 0 0) 3) - 3) (repeat (face 0 0 0) 3))) /\
    (last gs none = blink_left ->
     (4 <= List.length (repeat (face 0 0 0) 3))%nat /\
     Forall (fun landmarks => eye_closed landmarks LEFT_EYE)
       (skipn (List.length (repeat (face 0 0 0) 3) - 4) (repeat (face 0 0 0) 3)) /\
     Forall (fun landmarks => eye_open landmarks RIGHT_EYE)
       (skipn (List.length (repeat (face 0 0 0) 3) - 1) (repeat (face 0 0 0) 3))) /\
    (last gs none = blink_right ->
     (4 <= List.length (repeat (face 0 0 0) 3))%nat /\
     Forall (fun landmarks => eye_closed landmarks RIGHT_EYE)
       (skipn (List.length (repeat (face 0 0 0) 3) - 4) (repeat (face 0 0 0) 3)) /\
     Forall (fun landmarks => eye_open landmarks LEFT_EYE)
       (skipn (List.length (repeat (face 0 0 0) 3) - 1) (repeat (face 0 0 0) 3))) /\
    (last gs none = mouth_open ->
     (6 <= List.length (repeat (face 0 0 0) 3))%nat /\
     Forall mouth_wide
       (skipn (List.length (repeat (face 0 0 0) 3) - 6) (repeat (face 0 0 0) 3))).
Proof.
  apply (emission_backed_by_frames (init "nose" false true 0)
           (repeat (face 0 0 0) 3)).
  - repeat split.
  - apply Forall_forall. intros l Hl. apply repeat_spec in Hl. subst.
    apply face_populated.
Defined.

(** ** One frame, in full *)

Ltac finish_rate :=
  unfold rate, returned, tick; tracker_fields;
  destruct (Rltb 0 _);
  match goal with
  | |- context [?s && quit_key ?f] => destruct (s && quit_key f)
  end;
  reflexivity.

(** A read frame with no face: the default record with the rate. *)
Lemma process_frame_no_face self f :
  cap_opened self = true ->
  ret f = true ->
  raw_point self f = Ok None ->
  process_frame self f =
  Ok (returned self f (mkTrackingRecord 0.5 0.5 none false (rate self f)),
      with_statistics self (tick (statistics self))).
Proof.
  intros Hcap Hret Hraw. unfold process_frame, raw_point in *.
  destruct self as [m sp c mp gs sm st]. tracker_fields. subst c.
  rewrite Hret. tracker_fields.
  destruct mp.
  - destruct (face_landmarks f) as [| raw rest]; [finish_rate |].
    rewrite (get_tracking_point_mode _ (mkFaceTracker m sp true true gs sm st))
      by reflexivity.
    rewrite Hraw. finish_rate.
  - destruct (faces f) as [| [[[bx by_] w] h] rest]; [| discriminate].
    finish_rate.
Qed.

(** A read frame with a box, on the Haar path. *)
Lemma process_frame_box self f px py :
  cap_opened self = true ->
  ret f = true ->
  mediapipe self = false ->
  raw_point self f = Ok (Some (px, py)) ->
  let a := smoothing_factor (smoothing self) in
  let sx := smooth_x (smoothing self) * a + px * (1 - a) in
  let sy := smooth_y (smoothing self) * a + py * (1 - a) in
  process_frame self f =
  Ok (returned self f (mkTrackingRecord sx sy none true (rate self f)),
      mkFaceTracker (mode self) (show_preview self) true false
        (gestures self) (mkSmoothing sx sy a) (tick (statistics self))).
Proof.
  intros Hcap Hret Hmp Hraw a sx sy. subst a sx sy.
  unfold process_frame, raw_point in *.
  destruct self as [m sp c mp gs sm st]. tracker_fields. subst c mp.
  rewrite Hret. tracker_fields.
  destruct (faces f) as [| [[[bx by_] w] h] rest]; [discriminate |].
  injection Hraw as <- <-. finish_rate.
Qed.

(** A read frame with a populated landmark set, on the landmarker path. *)
Lemma process_frame_face self f raw rest lc rc mw :
  cap_opened self = true ->
  ret f = true ->
  mediapipe self = true ->
  face_landmarks f = raw :: rest ->
  tests_of raw (lc, rc, mw) ->
  populated raw ->
  exists px py,
    raw_point self f = Ok (Some (px, py)) /\
    let a := smoothing_factor (smoothing self) in
    let sx := smooth_x (smoothing self) * a + px * (1 - a) in
    let sy := smooth_y (smoothing self) * a + py * (1 - a) in
    process_frame self f =
    Ok (returned self f
          (mkTrackingRecord sx sy (fst (recognize (gestures self) lc rc mw))
             true (rate self f)),
        mkFaceTracker (mode self) (show_preview self) true true
          (snd (recognize (gestures self) lc rc mw))
          (mkSmoothing sx sy a) (tick (statistics self))).
Proof.
  intros Hcap Hret Hmp Hf Ht Hpop.
  destruct (get_tracking_point_populated self raw (frame_width f)
              (frame_height f) Hpop) as (px & py & Hp).
  exists px, py.
  unfold process_frame, raw_point.
  destruct self as [m sp c mp gs sm st]. tracker_fields. subst c mp.
  rewrite Hret, Hf. tracker_fields. rewrite wrap_landmarks.
  split; [exact Hp |].
  rewrite (get_tracking_point_mode _ (mkFaceTracker m sp true true gs sm st))
    by reflexivity.
  rewrite Hp. tracker_fields.
  rewrite (detect_gesture_tests _ raw lc rc mw Ht). tracker_fields.
  finish_rate.
Qed.

(** ** The Haar path reports no gesture *)

Lemma raw_point_haar_total self f :
  mediapipe self = false -> exists p, raw_point self f = Ok p.
Proof.
  intros Hmp. unfold raw_point. rewrite Hmp.
  destruct (faces f) as [| [[[bx by_] w] h] rest]; eauto.
Qed.

(** X11. With the Haar cascade as detector, a run of frames never
    raises, every record it prints has gesture none, and the classifier
    state at the end is the classifier state at the start: the fallback
    detector tracks the position only. *)
Theorem haar_path_reports_no_gesture :
  forall frames self,
    mediapipe self = false ->
    exists rs self',
      run_loop self frames = Ok (rs, self') /\
      gestures self' = gestures self /\
      Forall (fun r => r_gesture r = none) rs.
Proof.
  induction frames as [| f frames IH]; intros self Hmp.
  - exists [], self. cbn. auto.
  - cbn [run_loop].
    destruct (cap_opened self) eqn:Hcap.
    2:{ rewrite process_frame_not_read by auto. cbn [bind].
        exists [], self. auto. }
    destruct (ret f) eqn:Hret.
    2:{ rewrite process_frame_not_read by auto. cbn [bind].
        exists [], self. auto. }
    destruct (raw_point_haar_total self f Hmp) as [[[px py] |] Hraw].
    + rewrite (process_frame_box self f px py Hcap Hret Hmp Hraw).
      cbn [bind]. unfold returned.
      destruct (show_preview self && quit_key f).
      * do 2 eexists. split; [reflexivity |]. split; [reflexivity | constructor].
      * match goal with
        | |- context [run_loop ?s frames] =>
            destruct (IH s eq_refl) as (rs & self' & -> & Hg & Hrs)
        end.
        cbn [bind]. do 2 eexists. split; [reflexivity |].
        split; [exact Hg |]. constructor; [reflexivity | exact Hrs].
    + rewrite (process_frame_no_face self f Hcap Hret Hraw).
      cbn [bind]. unfold returned.
      destruct (show_preview self && quit_key f).
      * do 2 eexists. split; [reflexivity |].
        split; [destruct self; reflexivity | constructor].
      * match goal with
        | |- context [run_loop ?s frames] =>
            destruct (IH s) as (rs & self' & -> & Hg & Hrs)
        end.
        { destruct self; exact Hmp. }
        cbn [bind]. do 2 eexists. split; [reflexivity |].
        split; [rewrite Hg; destruct self; reflexivity |].
        constructor; [reflexivity | exact Hrs].
Qed.

Lemma haar_path_reports_no_gesture_witness :
  exists rs self',
    run_loop (main_tracker "nose" false false 0 0.3)
      [box_frame 200 100 240 240 1; mkFrame true 480 640 [] [] 2 false;
       box_frame 210 100 240 240 3] = Ok (rs, self') /\
    gestures self' = gestures (main_tracker "nose" false false 0 0.3) /\
    Forall (fun r => r_gesture r = none) rs.
Proof.
  apply (haar_path_reports_no_gesture
           [box_frame 200 100 240 240 1; mkFrame true 480 640 [] [] 2 false;
            box_frame 210 100 240 240 3]
           (main_tracker "nose" false false 0 0.3)).
  reflexivity.
Defined.

(** ** The end of the loop *)

(** X15. A frame that cannot be read ends the loop: the records printed
    and the final tracker are those of the frames before it, whatever
    follows; and a tracker whose camera is not open prints nothing and is
    left unchanged. *)
Theorem run_loop_stops_at_failed_read :
  (forall self before f after,
      ret f = false ->
      run_loop self (before ++ f :: after) = run_loop self before)
  /\
  (forall self frames,
      cap_opened self = false ->
      run_loop self frames = Ok ([], self)).
Proof.
  split.
  - intros self before f after Hret. revert self.
    induction before as [| f0 before IH]; intros self.
    + cbn [app run_loop]. rewrite process_frame_not_read by auto.
      reflexivity.
    + cbn [app run_loop].
      destruct (process_frame self f0) as [[[r |] self1] |]; cbn [bind];
        try reflexivity.
      rewrite IH. reflexivity.
  - intros self [| f frames] Hcap; [reflexivity |].
    cbn [run_loop]. rewrite process_frame_not_read by auto. reflexivity.
Qed.

Lemma run_loop_stops_at_failed_read_witness :
  run_loop (main_tracker "nose" false true 0 0.3)
    ([landmarks_frame [point_face 0.8 0.2] 1]
       ++ mkFrame false 480 640 [] [] 2 false
       :: [landmarks_frame [point_face 0.1 0.1] 3]) =
  run_loop (main_tracker "nose" false true 0 0.3)
    [landmarks_frame [point_face 0.8 0.2] 1]
  /\
  run_loop (init "nose" false true 0)
    [landmarks_frame [point_face 0.8 0.2] 1] =
  Ok ([], init "nose" false true 0).
Proof.
  destruct run_loop_stops_at_failed_read as [Hstop Hclosed].
  split.
  - apply (Hstop (main_tracker "nose" false true 0 0.3)
             [landmarks_frame [point_face 0.8 0.2] 1]
             (mkFrame false 480 640 [] [] 2 false)
             [landmarks_frame [point_face 0.1 0.1] 3]).
    reflexivity.
  - apply (Hclosed (init "nose" false true 0)
             [landmarks_frame [point_face 0.8 0.2] 1]).
    reflexivity.
Defined.

(** ** The frames the classifier sees *)

Lemma run_loop_tests frames : forall self tests,
  cap_opened self = true ->
  mediapipe self = true ->
  Forall (processed self) frames ->
  Forall frame_populated frames ->
  Forall2 tests_of (face_sets frames) tests ->
  exists rs self',
    run_loop self frames = Ok (rs, self') /\
    List.length rs = List.length frames /\
    gestures self' = snd (recognize_all (gestures self) tests) /\
    map r_gesture (filter r_face_detected rs) =
      fst (recognize_all (gestures self) tests) /\
    Forall (fun r => r_face_detected r = false -> r_gesture r = none) rs.
Proof.
  induction frames as [| f frames IH];
    intros self tests Hcap Hmp Hproc Hpop Htests.
  - inversion Htests; subst. exists [], self. cbn. auto.
  - inversion Hproc as [| ? ? [Hret Hquit] Hproc']; subst.
    inversion Hpop as [| ? ? Hpf Hpop']; subst.
    cbn [run_loop]. cbn [face_sets flat_map] in Htests.
    fold (face_sets frames) in Htests.
    unfold frame_populated in Hpf.
    assert (Hnone : raw_point self f = Ok None ->
                    Forall2 tests_of (face_sets frames) tests ->
                    exists rs self',
                      (' (result, self0) <- process_frame self f;;
                       match result with
                       | Some r =>
                           ' (rs0, self1) <- run_loop self0 frames;;
                           Ok (r :: rs0, self1)
                       | None => Ok ([], self0)
                       end) = Ok (rs, self') /\
                      List.length rs = S (List.length frames) /\
                      gestures self' = snd (recognize_all (gestures self) tests) /\
                      map r_gesture (filter r_face_detected rs) =
                        fst (recognize_all (gestures self) tests) /\
                      Forall (fun r => r_face_detected r = false ->
                                       r_gesture r = none) rs).
    { intros Hraw Ht.
      rewrite (process_frame_no_face self f Hcap Hret Hraw).
      unfold returned. rewrite Hquit. cbn [bind].
      destruct (IH (with_statistics self (tick (statistics self))) tests)
        as (rs & self' & -> & Hlen & Hg & Hgs & Hnf);
        try (destruct self; assumption).
      cbn [gestures with_statistics] in Hg, Hgs.
      cbn [bind]. do 2 eexists. split; [reflexivity |].
      split; [cbn [List.length]; rewrite Hlen; reflexivity |].
      split; [exact Hg |].
      split; [cbn [filter r_face_detected]; exact Hgs |].
      constructor; [reflexivity | exact Hnf]. }
    destruct (face_landmarks f) as [| raw rest] eqn:Hf.
    + apply Hnone; [| exact Htests].
      unfold raw_point. rewrite Hmp, Hf. reflexivity.
    + destruct Hpf as [-> | Hraw].
      * apply Hnone; [| exact Htests].
        unfold raw_point. rewrite Hmp, Hf. reflexivity.
      * rewrite (populated_not_empty _ Hraw) in Htests.
        cbn [app] in Htests.
        inversion Htests as [| ? [[lc rc] mw] ? tests' Ht Htests']; subst.
        destruct (process_frame_face self f raw rest lc rc mw
                    Hcap Hret Hmp Hf Ht Hraw) as (px & py & _ & Hp).
        cbv zeta in Hp. rewrite Hp. unfold returned. rewrite Hquit.
        cbn [bind].
        match goal with
        | |- context [run_loop ?s frames] =>
            destruct (IH s tests' eq_refl eq_refl)
              as (rs & self' & -> & Hlen & Hg & Hgs & Hnf); auto
        end.
        cbn [bind]. do 2 eexists. split; [reflexivity |].
        split; [cbn [List.length]; rewrite Hlen; reflexivity |].
        rewrite recognize_all_cons. cbn [fst snd].
        split; [exact Hg |].
        split; [cbn [filter r_face_detected map r_gesture];
                rewrite Hgs; reflexivity |].
        constructor; [discriminate | exact Hnf].
Qed.

Lemma face_sets_populated frames :
  Forall frame_populated frames -> Forall populated (face_sets frames).
Proof.
  induction 1 as [| f frames Hf _ IH]; [constructor |].
  cbn [face_sets flat_map]. fold (face_sets frames).
  unfold frame_populated in Hf.
  destruct (face_landmarks f) as [| raw rest]; [exact IH |].
  destruct Hf as [-> | Hp]; [exact IH |].
  rewrite (populated_not_empty _ Hp). constructor; assumption.
Qed.

(** X12. On the landmarker path the classifier sees exactly the
    face-detected frames, in order: over a run of processed frames the
    gestures of the face-detected records are the labels of
    [detect_gesture] called on the landmark sets of those frames alone,
    and the final classifier state is the one those calls leave.  Frames
    with no face carry gesture none and change nothing in between, so a
    dropped frame does not restart a run length. *)
Theorem run_loop_gestures :
  forall self frames,
    cap_opened self = true ->
    mediapipe self = true ->
    Forall (processed self) frames ->
    Forall frame_populated frames ->
    exists rs self' gs self'',
      run_loop self frames = Ok (rs, self') /\
      List.length rs = List.length frames /\
      detect_gestures self (face_sets frames) = Ok (gs, self'') /\
      gestures self' = gestures self'' /\
      map r_gesture (filter r_face_detected rs) = gs /\
      Forall (fun r => r_face_detected r = false -> r_gesture r = none) rs.
Proof.
  intros self frames Hcap Hmp Hproc Hpop.
  destruct (populated_all_tests _ (face_sets_populated _ Hpop))
    as [tests Htests].
  destruct (run_loop_tests frames self tests Hcap Hmp Hproc Hpop Htests)
    as (rs & self' & Hrun & Hlen & Hg & Hgs & Hnf).
  rewrite (detect_gestures_tests _ _ _ Htests).
  exists rs, self'. do 2 eexists.
  split; [exact Hrun |]. split; [exact Hlen |].
  split; [reflexivity |]. cbn [gestures with_gestures].
  split; [exact Hg |]. split; [exact Hgs | exact Hnf].
Qed.

Lemma run_loop_gestures_witness :
  exists rs self' gs self'',
    run_loop (main_tracker "nose" false true 0 0.3)
      [landmarks_frame [face 0 0 0] 1; landmarks_frame [face 0 0 0] 2;
       landmarks_frame [] 3; landmarks_frame [face 0 0 0] 4]
    = Ok (rs, self') /\
    List.length rs = 4%nat /\
    detect_gestures (main_tracker "nose" false true 0 0.3)
      (face_sets
         [landmarks_frame [face 0 0 0] 1; landmarks_frame [face 0 0 0] 2;
          landmarks_frame [] 3; landmarks_frame [face 0 0 0] 4])
    = Ok (gs, self'') /\
    gestures self' = gestures self'' /\
    map r_gesture (filter r_face_detected rs) = gs /\
    Forall (fun r => r_face_detected r = false -> r_gesture r = none) rs.
Proof.
  apply (run_loop_gestures (main_tracker "nose" false true 0 0.3)
           [landmarks_frame [face 0 0 0] 1; landmarks_frame [face 0 0 0] 2;
            landmarks_frame [] 3; landmarks_frame [face 0 0 0] 4]).
  - reflexivity.
  - reflexivity.
  - repeat (constructor; [split; reflexivity |]). constructor.
  - constructor; [right; apply face_populated |].
    constructor; [right; apply face_populated |].
    constructor; [exact I |].
    constructor; [right; apply face_populated | constructor].
Defined.

(** ** Frame count, timestamp and rate *)

Lemma process_frame_processed self f :
  cap_opened self = true ->
  processed self f ->
  frame_populated f ->
  exists r gsx smx,
    process_frame self f =
    Ok (Some r,
        mkFaceTracker (mode self) (show_preview self) true (mediapipe self)
          gsx smx (tick (statistics self))) /\
    r_fps r = rate self f.
Proof.
  intros Hcap [Hret Hquit] Hpop.
  destruct (raw_point_total self f Hpop) as [[[px py] |] Hraw].
  - destruct (mediapipe self) eqn:Hmp.
    + assert (Hface : exists raw rest,
                 face_landmarks f = raw :: rest /\ populated raw).
      { unfold raw_point in Hraw. rewrite Hmp in Hraw.
        unfold frame_populated in Hpop.
        destruct (face_landmarks f) as [| raw rest]; [discriminate |].
        destruct Hpop as [-> | Hp]; [discriminate | eauto]. }
      destruct Hface as (raw & rest & Hf & Hp).
      destruct (populated_tests raw Hp) as [[[lc rc] mw] Ht].
      destruct (process_frame_face self f raw rest lc rc mw
                  Hcap Hret Hmp Hf Ht Hp) as (px' & py' & _ & Hpf).
      cbv zeta in Hpf. rewrite Hpf. unfold returned. rewrite Hquit.
      do 3 eexists. split; reflexivity.
    + rewrite (process_frame_box self f px py Hcap Hret Hmp Hraw).
      unfold returned. rewrite Hquit.
      do 3 eexists. split; reflexivity.
  - rewrite (process_frame_no_face self f Hcap Hret Hraw).
    unfold returned. rewrite Hquit.
    destruct self as [m sp c mp gs sm st]. cbn in Hcap. subst c.
    do 3 eexists. split; reflexivity.
Qed.

(** X14. Over a run of processed frames the rate of the i-th record
    (from 0) is the number of frames read so far divided by the time since
    the tracker was constructed, and 0.0 when the clock has not advanced
    past the start time: no division by a non-positive time is reported;
    for a frame count that starts non-negative no rate is negative. *)
Theorem record_rate :
  forall frames self,
    cap_opened self = true ->
    Forall (processed self) frames ->
    Forall frame_populated frames ->
    exists rs self',
      run_loop self frames = Ok (rs, self') /\
      List.length rs = List.length frames /\
      (forall i f r,
          nth_error frames i = Some f ->
          nth_error rs i = Some r ->
          r_fps r =
          if Rltb 0 (now f - start_time (statistics self))
          then IZR (frame_count (statistics self) + Z.of_nat i + 1)
               / (now f - start_time (statistics self))
          else 0) /\
      ((0 <= frame_count (statistics self))%Z ->
       Forall (fun r => 0 <= r_fps r) rs).
Proof.
  induction frames as [| f frames IH]; intros self Hcap Hproc Hpop.
  - exists [], self. cbn. repeat split; auto.
    intros [| i] f r H; discriminate.
  - inversion Hproc as [| ? ? Hpf Hproc']; subst.
    inversion Hpop as [| ? ? Hpopf Hpop']; subst.
    cbn [run_loop].
    destruct (process_frame_processed self f Hcap Hpf Hpopf)
      as (r & gsx & smx & -> & Hfps).
    cbn [bind].
    match goal with
    | |- context [run_loop ?s frames] =>
        destruct (IH s eq_refl) as (rs & self' & -> & Hlen & Hnth & Hpos);
          auto
    end.
    cbn [bind]. do 2 eexists. split; [reflexivity |].
    split; [cbn [List.length]; rewrite Hlen; reflexivity |].
    cbn [statistics tick frame_count start_time] in Hnth, Hpos.
    split.
    + intros [| i] f' r' Hf Hr; cbn [nth_error] in Hf, Hr.
      * injection Hf as <-. injection Hr as <-. rewrite Hfps.
        unfold rate. rewrite Z.add_0_r. reflexivity.
      * rewrite (Hnth i f' r' Hf Hr).
        replace (frame_count (statistics self) + 1 + Z.of_nat i + 1)%Z
          with (frame_count (statistics self) + Z.of_nat (S i) + 1)%Z by lia.
        reflexivity.
    + intros H0. constructor; [| apply Hpos; lia].
      rewrite Hfps. unfold rate.
      destruct (Rltb 0 _) eqn:E; [| lra].
      apply Rltb_true_inv in E.
      apply Rmult_le_pos; [| left; apply Rinv_0_lt_compat; exact E].
      apply IZR_le. lia.
Qed.

Lemma record_rate_witness :
  exists rs self',
    run_loop (main_tracker "nose" false true 0 0.3)
      [landmarks_frame [point_face 0.8 0.2] 1; landmarks_frame [] 2] =
    Ok (rs, self') /\
    List.length rs = 2%nat /\
    (forall i f r,
        nth_error
          [landmarks_frame [point_face 0.8 0.2] 1; landmarks_frame [] 2] i
        = Some f ->
        nth_error rs i = Some r ->
        r_fps r =
        if Rltb 0 (now f - 0)
        then IZR (0 + Z.of_nat i + 1) / (now f - 0)
        else 0) /\
    ((0 <= 0)%Z -> Forall (fun r => 0 <= r_fps r) rs).
Proof.
  apply (record_rate
           [landmarks_frame [point_face 0.8 0.2] 1; landmarks_frame [] 2]
           (main_tracker "nose" false true 0 0.3)).
  - reflexivity.
  - constructor; [split; reflexivity |].
    constructor; [split; reflexivity | constructor].
  - constructor; [apply point_frame_populated |].
    constructor; [exact I | constructor].
Defined.

(** A frame that is read on an open camera: what is returned depends on
    the quit key, and the frame is counted in either case. *)
Lemma process_frame_read self f :
  cap_opened self = true ->
  ret f = true ->
  frame_populated f ->
  exists r gsx smx,
    process_frame self f =
    Ok (returned self f r,
        mkFaceTracker (mode self) (show_preview self) true (mediapipe self)
          gsx smx (tick (statistics self))).
Proof.
  intros Hcap Hret Hpop.
  destruct (raw_point_total self f Hpop) as [[[px py] |] Hraw].
  - destruct (mediapipe self) eqn:Hmp.
    + assert (Hface : exists raw rest,
                 face_landmarks f = raw :: rest /\ populated raw).
      { unfold raw_point in Hraw. rewrite Hmp in Hraw.
        unfold frame_populated in Hpop.
        destruct (face_landmarks f) as [| raw rest]; [discriminate |].
        destruct Hpop as [-> | Hp]; [discriminate | eauto]. }
      destruct Hface as (raw & rest & Hf & Hp).
      destruct (populated_tests raw Hp) as [[[lc rc] mw] Ht].
      destruct (process_frame_face self f raw rest lc rc mw
                  Hcap Hret Hmp Hf Ht Hp) as (px' & py' & _ & Hpf).
      cbv zeta in Hpf. rewrite Hpf. do 3 eexists. reflexivity.
    + rewrite (process_frame_box self f px py Hcap Hret Hmp Hraw).
      do 3 eexists. reflexivity.
  - rewrite (process_frame_no_face self f Hcap Hret Hraw).
    destruct self as [m sp c mp gs sm st]. cbn in Hcap. subst c.
    do 3 eexists. reflexivity.
Qed.

(** A run of processed frames, followed by anything: one record and one
    counted frame per processed frame, then the run over what follows. *)
Lemma run_loop_processed before : forall self,
  cap_opened self = true ->
  Forall (processed self) before ->
  Forall frame_populated before ->
  exists rs1 self1,
    List.length rs1 = List.length before /\
    cap_opened self1 = true /\
    show_preview self1 = show_preview self /\
    statistics self1 =
      mkStatistics
        (frame_count (statistics self) + Z.of_nat (List.length before))
        (start_time (statistics self))
        (timestamp_ms (statistics self) + 33 * Z.of_nat (List.length before)) /\
    forall rest,
      run_loop self (before ++ rest) =
      (' (rs2, self2) <- run_loop self1 rest ;; Ok (rs1 ++ rs2, self2)).
Proof.
  induction before as [| f before IH]; intros self Hcap Hproc Hpop.
  - exists [], self. cbn [List.length app].
    split; [reflexivity |]. split; [exact Hcap |]. split; [reflexivity |].
    split.
    + destruct (statistics self) as [c s t]. cbn [frame_count start_time
        timestamp_ms]. f_equal; lia.
    + intros rest. destruct (run_loop self rest) as [[rs2 self2] |];
        reflexivity.
  - inversion Hproc as [| ? ? Hpf Hproc']; subst.
    inversion Hpop as [| ? ? Hpopf Hpop']; subst.
    destruct (process_frame_processed self f Hcap Hpf Hpopf)
      as (r & gsx & smx & Hp & _).
    match type of Hp with
    | _ = Ok (_, ?s) =>
        destruct (IH s eq_refl Hproc' Hpop')
          as (rs1 & self1 & Hlen & Hcap1 & Hsp & Hst & Hrest)
    end.
    exists (r :: rs1), self1.
    split; [cbn [List.length]; rewrite Hlen; reflexivity |].
    split; [exact Hcap1 |]. split; [exact Hsp |].
    split.
    + rewrite Hst. unfold tick.
      cbn [statistics frame_count start_time timestamp_ms List.length].
      f_equal; lia.
    + intros rest. cbn [app run_loop]. rewrite Hp. cbn [bind].
      rewrite Hrest.
      destruct (run_loop self1 rest) as [[rs2 self2] |]; reflexivity.
Qed.

(** X13. On an open camera, after n processed frames n records have
    been printed, the frame count has advanced by n and the timestamp
    handed to the landmarker by 33 n ms, and the start time is kept.  A
    next frame that cannot be read ends the loop and is not counted.  A
    next frame that is read with the preview shown and the quit key
    pressed ends the loop too: it is counted (count n + 1, timestamp
    33 (n + 1) ms further) but no record is printed for it. *)
Theorem frame_count_and_timestamp :
  forall self before,
    cap_opened self = true ->
    Forall (processed self) before ->
    Forall frame_populated before ->
    let n := Z.of_nat (List.length before) in
    let st := statistics self in
    (exists rs self',
        run_loop self before = Ok (rs, self') /\
        List.length rs = List.length before /\
        statistics self' =
        mkStatistics (frame_count st + n) (start_time st)
          (timestamp_ms st + 33 * n))
    /\
    (forall f after,
        ret f = false ->
        exists rs self',
          run_loop self (before ++ f :: after) = Ok (rs, self') /\
          List.length rs = List.length before /\
          statistics self' =
          mkStatistics (frame_count st + n) (start_time st)
            (timestamp_ms st + 33 * n))
    /\
    (forall f after,
        ret f = true ->
        frame_populated f ->
        show_preview self && quit_key f = true ->
        exists rs self',
          run_loop self (before ++ f :: after) = Ok (rs, self') /\
          List.length rs = List.length before /\
          statistics self' =
          mkStatistics (frame_count st + n + 1) (start_time st)
            (timestamp_ms st + 33 * (n + 1))).
Proof.
  intros self before Hcap Hproc Hpop n st. subst n st.
  destruct (run_loop_processed before self Hcap Hproc Hpop)
    as (rs1 & self1 & Hlen & Hcap1 & Hsp & Hst & Hrest).
  split; [| split].
  - exists rs1, self1.
    rewrite <- (app_nil_r before) at 1. rewrite Hrest.
    cbn [run_loop bind]. rewrite app_nil_r. auto.
  - intros f after Hret. exists rs1, self1.
    rewrite Hrest. cbn [run_loop].
    rewrite process_frame_not_read by auto.
    cbn [bind]. rewrite app_nil_r. auto.
  - intros f after Hret Hpopf Hquit.
    destruct (process_frame_read self1 f Hcap1 Hret Hpopf)
      as (r & gsx & smx & Hp).
    unfold returned in Hp. rewrite Hsp, Hquit in Hp.
    rewrite Hrest. cbn [run_loop]. rewrite Hp. cbn [bind].
    do 2 eexists. split; [reflexivity |].
    split; [rewrite app_nil_r; exact Hlen |].
    cbn [statistics]. rewrite Hst. unfold tick.
    cbn [frame_count start_time timestamp_ms]. f_equal; lia.
Qed.

Lemma frame_count_and_timestamp_witness :
  (exists rs self',
      run_loop (main_tracker "nose" true true 0 0.3)
        [landmarks_frame [point_face 0.8 0.2] 1; landmarks_frame [] 2]
      = Ok (rs, self') /\
      List.length rs = 2%nat /\
      statistics self' = mkStatistics (0 + 2) 0 (0 + 33 * 2))
  /\
  (exists rs self',
      run_loop (main_tracker "nose" true true 0 0.3)
        ([landmarks_frame [point_face 0.8 0.2] 1; landmarks_frame [] 2]
           ++ mkFrame false 480 640 [] [] 3 false
           :: [landmarks_frame [] 4])
      = Ok (rs, self') /\
      List.length rs = 2%nat /\
      statistics self' = mkStatistics (0 + 2) 0 (0 + 33 * 2))
  /\
  (exists rs self',
      run_loop (main_tracker "nose" true true 0 0.3)
        ([landmarks_frame [point_face 0.8 0.2] 1; landmarks_frame [] 2]
           ++ mkFrame true 480 640 [] [] 3 true
           :: [landmarks_frame [] 4])
      = Ok (rs, self') /\
      List.length rs = 2%nat /\
      statistics self' = mkStatistics (0 + 2 + 1) 0 (0 + 33 * (2 + 1))).
Proof.
  destruct (frame_count_and_timestamp (main_tracker "nose" true true 0 0.3)
              [landmarks_frame [point_face 0.8 0.2] 1; landmarks_frame [] 2])
    as (Hrun & Hfail & Hquit).
  - reflexivity.
  - constructor; [split; reflexivity |].
    constructor; [split; reflexivity | constructor].
  - constructor; [apply point_frame_populated |].
    constructor; [exact I | constructor].
  - split; [exact Hrun |]. split.
    + apply (Hfail (mkFrame false 480 640 [] [] 3 false)
               [landmarks_frame [] 4]).
      reflexivity.
    + apply (Hquit (mkFrame true 480 640 [] [] 3 true)
               [landmarks_frame [] 4]).
      * reflexivity.
      * exact I.
      * reflexivity.
Defined.

(** ** Landmark sets that are too short *)

Lemma populated_length landmarks :
  populated landmarks <-> (386 < List.length landmarks)%nat.
Proof.
  unfold populated. split.
  - intros H. rewrite Forall_forall in H. apply (H RIGHT_EYE_TOP).
    unfold LANDMARK_INDICES. simpl. tauto.
  - intros H.
    unfold LANDMARK_INDICES, NOSE_TIP, LEFT_EYE_OUTER, LEFT_EYE_INNER,
      RIGHT_EYE_OUTER, RIGHT_EYE_INNER, LEFT_EYE_TOP, LEFT_EYE_BOTTOM,
      RIGHT_EYE_TOP, RIGHT_EYE_BOTTOM, UPPER_LIP, LOWER_LIP, LEFT_MOUTH,
      RIGHT_MOUTH, LEFT_EYEBROW, RIGHT_EYEBROW, CHIN, FOREHEAD.
    repeat (constructor; [lia |]). constructor.
Qed.

Lemma getitem_past_end {A : Type} (l : list A) (i : nat) :
  (List.length l <= i)%nat -> getitem l i = IndexError.
Proof.
  intros H. unfold getitem.
  destruct (nth_error l i) eqn:E; [| reflexivity].
  assert (nth_error l i <> None) by (rewrite E; discriminate).
  apply nth_error_Some in H0. lia.
Qed.

Lemma detect_gesture_short self landmarks :
  (0 < List.length landmarks <= 386)%nat ->
  detect_gesture self landmarks = IndexError.
Proof.
  intros [Hpos Hlen]. unfold detect_gesture.
  destruct landmarks as [| lm rest]; [cbn in Hpos; lia |].
  cbn [not_].
  destruct (calculate_eye_aspect_ratio (lm :: rest) LEFT_EYE);
    cbn [bind]; [| reflexivity].
  unfold calculate_eye_aspect_ratio at 1.
  cbn [not_ RIGHT_EYE getitem nth_error bind].
  fold (@getitem FaceLandmark (lm :: rest) RIGHT_EYE_TOP).
  rewrite (getitem_past_end (lm :: rest) RIGHT_EYE_TOP)
    by (unfold RIGHT_EYE_TOP; exact Hlen).
  reflexivity.
Qed.

(** X18. [detect_gesture] raises [IndexError] exactly on a landmark list
    that is not empty and has fewer than 387 entries (index 386, the top
    of the right eye, is the largest it reads); on the empty list and on
    every longer list it returns a label. *)
Theorem detect_gesture_raises_iff_short :
  forall self landmarks,
    detect_gesture self landmarks = IndexError <->
    (0 < List.length landmarks <= 386)%nat.
Proof.
  intros self landmarks. split.
  - intros Hraise.
    destruct landmarks as [| lm rest]; [discriminate |].
    split; [cbn; lia |].
    destruct (Nat.le_gt_cases (List.length (lm :: rest)) 386) as [H | H];
      [exact H |].
    apply populated_length in H.
    destruct (populated_tests _ H) as [[[lc rc] mw] Ht].
    rewrite (detect_gesture_tests self _ lc rc mw Ht) in Hraise.
    discriminate.
  - apply detect_gesture_short.
Qed.

Lemma get_tracking_point_not_none self landmarks w h :
  not_ landmarks = false -> get_tracking_point self landmarks w h <> Ok None.
Proof.
  intros Hne. unfold get_tracking_point. rewrite Hne.
  repeat match goal with
         | |- (if ?c then _ else _) <> _ => destruct c
         | |- bind ?m _ <> _ => destruct m; cbn [bind]
         end; discriminate.
Qed.

(** X19. On the landmarker path a read frame whose first landmark set
    is not empty and has fewer than 387 entries makes [process_frame]
    raise [IndexError], and the exception leaves [run_loop] with it:
    no record is returned for that frame or any later one. *)
Theorem short_landmark_set_raises :
  forall self f raw rest frames,
    cap_opened self = true ->
    ret f = true ->
    mediapipe self = true ->
    face_landmarks f = raw :: rest ->
    (0 < List.length raw <= 386)%nat ->
    process_frame self f = IndexError /\
    run_loop self (f :: frames) = IndexError.
Proof.
  intros self f raw rest frames Hcap Hret Hmp Hf Hshort.
  assert (Hp : process_frame self f = IndexError).
  { unfold process_frame.
    destruct self as [m sp c mp gs sm st]. tracker_fields. subst c mp.
    rewrite Hret, Hf. tracker_fields. rewrite wrap_landmarks.
    match goal with
    | |- context [get_tracking_point ?s ?l ?w ?h] =>
        pose proof (get_tracking_point_not_none s l w h) as Hnn;
        destruct (get_tracking_point s l w h) as [[[px py] |] |]
    end; cbn [bind]; try reflexivity.
    - rewrite (detect_gesture_short _ raw Hshort). reflexivity.
    - exfalso. apply Hnn; [| reflexivity].
      destruct raw; [cbn in Hshort; lia | reflexivity]. }
  split; [exact Hp |].
  cbn [run_loop]. rewrite Hp. reflexivity.
Qed.

Lemma short_landmark_set_raises_witness :
  process_frame (main_tracker "nose" false true 0 0.3)
    (landmarks_frame [repeat (mkFaceLandmark 0.5 0.5 0) 100] 1) = IndexError /\
  run_loop (main_tracker "nose" false true 0 0.3)
    (landmarks_frame [repeat (mkFaceLandmark 0.5 0.5 0) 100] 1
       :: [landmarks_frame [] 2]) = IndexError.
Proof.
  apply (short_landmark_set_raises (main_tracker "nose" false true 0 0.3)
           (landmarks_frame [repeat (mkFaceLandmark 0.5 0.5 0) 100] 1)
           (repeat (mkFaceLandmark 0.5 0.5 0) 100) []
           [landmarks_frame [] 2]);
    try reflexivity.
  rewrite repeat_length. lia.
Defined.

(** ** From frames inside the image to records inside the image *)

Lemma frame_in_unit_square_raw_point self f px py :
  frame_in_unit_square f ->
  raw_point self f = Ok (Some (px, py)) ->
  in_unit_square px py.
Proof.
  intros [Hl Hb] Hraw. unfold raw_point in Hraw.
  destruct (mediapipe self).
  - destruct (face_landmarks f) as [| raw rest]; [discriminate |].
    rewrite wrap_landmarks in Hraw.
    exact (get_tracking_point_in_unit_square _ _ _ _ _ _ Hl Hraw).
  - destruct (faces f) as [| [[[bx by_] w] h] rest]; [discriminate |].
    injection Hraw as <- <-.
    destruct Hb as (H1 & H2 & H3 & H4 & H5 & H6 & H7 & H8).
    apply box_centre_in_unit_square; assumption.
Qed.

(** X20. For a factor in [0, 1), a run over frames whose landmarks lie
    in the unit square (landmarker path) or whose Haar box lies inside the
    frame (Haar path) never raises on populated frames, and every record
    it prints has x and y in [0, 1], in every tracking mode. *)
Theorem records_in_unit_square :
  forall mode preview mp t0 alpha frames,
    0 <= alpha < 1 ->
    Forall frame_populated frames ->
    Forall frame_in_unit_square frames ->
    exists rs self',
      run_loop (main_tracker mode preview mp t0 alpha) frames = Ok (rs, self') /\
      Forall (fun r => in_unit_square (r_x r) (r_y r)) rs /\
      in_unit_square (smooth_x (smoothing self')) (smooth_y (smoothing self')).
Proof.
  intros mode preview mp t0 alpha frames Ha Hpop Hin.
  destruct (run_loop_in_unit_square (main_tracker mode preview mp t0 alpha)
              frames (main_tracker mode preview mp t0 alpha))
    as (rs & self' & Hrun & Hs & Hrs); try reflexivity; try assumption.
  - cbn [main_tracker init start with_smoothing smoothing smooth_x smooth_y].
    split; lra.
  - eapply Forall_impl; [| exact Hin].
    intros f Hf px py. apply frame_in_unit_square_raw_point. exact Hf.
  - exists rs, self'. auto.
Qed.

Lemma records_in_unit_square_witness :
  exists rs self',
    run_loop (main_tracker "eyes" false true 0 0.3)
      [landmarks_frame [face 0.03 0.03 0.1] 1; landmarks_frame [] 2]
    = Ok (rs, self') /\
    Forall (fun r => in_unit_square (r_x r) (r_y r)) rs /\
    in_unit_square (smooth_x (smoothing self')) (smooth_y (smoothing self')).
Proof.
  apply (records_in_unit_square "eyes" false true 0 0.3
           [landmarks_frame [face 0.03 0.03 0.1] 1; landmarks_frame [] 2]).
  - lra.
  - constructor; [right; apply face_populated |].
    constructor; [exact I | constructor].
  - constructor; [split; [exact face_in_unit_square | exact I] |].
    constructor; [split; exact I | constructor].
Defined.
